(** * Shallow embedding of vault/core.go (the Core of the secret store)

    The Core orchestrates the security barrier, the router, the token and
    policy stores, the expiration manager and the audit broker.  Those
    collaborators live outside core.go; they are represented by their
    observable outcomes, bundled in the record [Env], so that every theorem
    below holds for every behaviour of the collaborators.  The Core's own
    mutable fields live in the record [Core]; the calls the Core makes to its
    collaborators are recorded in an event trace. *)

From Stdlib Require Import ZArith List String Ascii Bool Lia.
Import ListNotations.
Open Scope Z_scope.

(** ** Errors of the package *)

Inductive error :=
| ErrSealed
| ErrStandby
| ErrAlreadyInit
| ErrNotInit
| ErrInternalError
| ErrHANotEnabled
| ErrPermissionDenied            (* logical.ErrPermissionDenied *)
| ErrInvalidRequest              (* logical.ErrInvalidRequest *)
| ErrInvalidKey (Reason : string)
| ErrMsg (msg : string).         (* an error built with fmt.Errorf / errors.New *)

Definition error_eqb (a b : error) : bool :=
  match a, b with
  | ErrSealed, ErrSealed | ErrStandby, ErrStandby
  | ErrAlreadyInit, ErrAlreadyInit | ErrNotInit, ErrNotInit
  | ErrInternalError, ErrInternalError | ErrHANotEnabled, ErrHANotEnabled
  | ErrPermissionDenied, ErrPermissionDenied
  | ErrInvalidRequest, ErrInvalidRequest => true
  | ErrInvalidKey r1, ErrInvalidKey r2 => String.eqb r1 r2
  | ErrMsg m1, ErrMsg m2 => String.eqb m1 m2
  | _, _ => false
  end.

(** [err.Error()] *)
Definition errorString (e : error) : string :=
  match e with
  | ErrSealed => "Vault is sealed"
  | ErrStandby => "Vault is in standby mode"
  | ErrAlreadyInit => "Vault is already initialized"
  | ErrNotInit => "Vault is not initialized"
  | ErrInternalError => "internal error"
  | ErrHANotEnabled => "Vault is not configured for highly-available mode"
  | ErrPermissionDenied => "permission denied"
  | ErrInvalidRequest => "invalid request"
  | ErrInvalidKey r => String.append "invalid key: " r
  | ErrMsg m => m
  end.

(** A Go result [(T, error)] where only one side is meaningful. *)
Inductive result (A : Type) := Ok (a : A) | Err (e : error).
Arguments Ok {A} a.
Arguments Err {A} e.

Definition bytes := list Byte.byte.

Definition bytes_eqb (a b : bytes) : bool :=
  if list_eq_dec Byte.byte_eq_dec a b then true else false.

(** ** Constants of core.go *)

Definition coreSealConfigPath : string := "core/seal-config".
Definition coreLockPath : string := "core/lock".
Definition coreLeaderPrefix : string := "core/leader/".

(** [credentialRoutePrefix] is declared in the mount code of the package. *)
Definition credentialRoutePrefix : string := "auth/".

(** ** Data model of the logical layer *)

Inductive Operation := ReadOperation | WriteOperation | DeleteOperation | ListOperation.

Module Secret.
Record t := mk { Lease : Z; LeaseID : string }.
End Secret.

Module Auth.
Record t := mk {
    ClientToken : string;
    Policies : list string;
    Metadata : list (string * string);
    DisplayName : string;
    Lease : Z }.
End Auth.

Module Response.
Record t := mk {
    Secret : option Secret.t;
    Auth : option Auth.t;
    Data : list (string * string) }.
End Response.

Module Request.
Record t := mk {
    Operation : Operation;
    Path : string;
    ClientToken : string;
    DisplayName : string }.
End Request.

Module TokenEntry.
Record t := mk {
    ID : string;
    Path : string;
    Policies : list string;
    Meta : list (string * string);
    DisplayName : string }.
End TokenEntry.

(** A compiled ACL, as far as the Core queries it. *)
Record ACL := mkACL {
  RootPrivilege : string -> bool;
  AllowOperation : Operation -> string -> bool }.

(** [logical.ErrorResponse(msg)] *)
Definition ErrorResponse (msg : string) : Response.t :=
  Response.mk None None [("error"%string, msg)].

Definition with_secret (r : Response.t) (s : Secret.t) : Response.t :=
  Response.mk (Some s) (Response.Auth r) (Response.Data r).
Definition with_auth (r : Response.t) (a : Auth.t) : Response.t :=
  Response.mk (Response.Secret r) (Some a) (Response.Data r).
Definition set_secret_lease (s : Secret.t) (l : Z) : Secret.t :=
  Secret.mk l (Secret.LeaseID s).
Definition set_secret_leaseid (s : Secret.t) (id : string) : Secret.t :=
  Secret.mk (Secret.Lease s) id.
Definition set_auth_lease (a : Auth.t) (l : Z) : Auth.t :=
  Auth.mk (Auth.ClientToken a) (Auth.Policies a) (Auth.Metadata a)
          (Auth.DisplayName a) l.
Definition set_auth_client_token (a : Auth.t) (t : string) : Auth.t :=
  Auth.mk t (Auth.Policies a) (Auth.Metadata a) (Auth.DisplayName a) (Auth.Lease a).
Definition set_auth_display_name (a : Auth.t) (n : string) : Auth.t :=
  Auth.mk (Auth.ClientToken a) (Auth.Policies a) (Auth.Metadata a) n (Auth.Lease a).
Definition set_req_display_name (r : Request.t) (n : string) : Request.t :=
  Request.mk (Request.Operation r) (Request.Path r) (Request.ClientToken r) n.

(** ** Go string helpers used by core.go *)

(** [strings.HasPrefix(s, p)] *)
Definition HasPrefix (s p : string) : bool := String.prefix p s.

(** [strings.TrimPrefix(s, p)] *)
Definition TrimPrefix (s p : string) : string :=
  if String.prefix p s
  then substring (String.length p) (String.length s - String.length p) s
  else s.

(** [strings.TrimSuffix(s, p)] *)
Definition TrimSuffix (s p : string) : string :=
  let n := String.length s in
  let k := String.length p in
  if Nat.leb k n && String.eqb (substring (n - k) k s) p
  then substring 0 (n - k) s
  else s.

(** [strings.Replace(s, "/", "-", -1)] *)
Fixpoint replaceSlashDash (s : string) : string :=
  match s with
  | EmptyString => EmptyString
  | String c rest =>
      String (if Ascii.eqb c "/"%char then "-"%char else c) (replaceSlashDash rest)
  end.

(** [strListContains] *)
Definition strListContains (l : list string) (s : string) : bool :=
  existsb (String.eqb s) l.

(** ** Seal configuration *)

Record SealConfig := mkSealConfig { SecretShares : Z; SecretThreshold : Z }.

(** [SealConfig.Validate] *)
Definition Validate (s : SealConfig) : option error :=
  if SecretShares s <? 1 then Some (ErrMsg "secret shares must be at least one")
  else if SecretThreshold s <? 1 then Some (ErrMsg "secret threshold must be at least one")
  else if SecretShares s >? 255 then Some (ErrMsg "secret shares must be less than 256")
  else if SecretThreshold s >? 255 then Some (ErrMsg "secret threshold must be less than 256")
  else if SecretThreshold s >? SecretShares s
  then Some (ErrMsg "secret threshold cannot be larger than secret shares")
  else None.

(** ** Steps of postUnseal and preSeal *)

Inductive PostUnsealStep :=
| LoadMounts | SetupMounts | StartRollback | SetupPolicyStore
| LoadCredentials | SetupCredentials | SetupExpiration | LoadAudits | SetupAudits.

Inductive PreSealStep :=
| TeardownAudits | StopExpiration | TeardownCredentials | TeardownPolicyStore
| StopRollback | UnloadMounts.

(** An HA lock handle ([physical.Lock]), described by the outcomes of its
    operations: [Value()] and the blocking acquisition loop [acquireLock]
    (which yields the leader channel, or nil once the stop channel closed). *)
Record Lock := mkLock {
  lockValue : result (bool * string);
  lockAcquired : bool }.

(** ** Calls the Core makes to its collaborators *)

Inductive event :=
| EvTokenLookup (token : string)
| EvUseToken (te : TokenEntry.t)
| EvPolicyACL (policies : list string)
| EvLogRequest (auth : option Auth.t) (req : Request.t)
| EvRoute (req : Request.t)
| EvRegister (req : Request.t) (resp : Response.t)
| EvRegisterAuth (path : string) (auth : Auth.t)
| EvLogResponse (auth : option Auth.t) (req : Request.t) (resp : option Response.t)
| EvTokenCreate (te : TokenEntry.t)
| EvCachePurge
| EvPostUnsealStep (s : PostUnsealStep)
| EvEmitMetricsStart
| EvPostUnsealComplete
| EvPreSealStart
| EvMetricsStop
| EvPreSealStep (s : PreSealStep)
| EvPreSealComplete
| EvBarrierUnseal (key : bytes)
| EvBarrierSeal
| EvBarrierGet (key : string)
| EvBarrierPut (key : string) (value : bytes)
| EvBarrierDelete (key : string)
| EvCombine (parts : list bytes)
| EvStandbyStart
| EvStandbyStop
| EvLockWith (key value : string)
| EvLockValue
| EvLockAcquire
| EvLockUnlock.

(** ** The Core's mutable state *)

Record Core := mkCore {
  ha : bool;                  (* c.ha != nil *)
  advertiseAddr : string;
  physicalIsCache : bool;     (* c.physical is a *physical.Cache *)
  sealed : bool;
  standby : bool;
  standbyRunning : bool;      (* standbyDoneCh / standbyStopCh are live *)
  unlockParts : list bytes;
  metricsRunning : bool }.    (* c.metricsCh != nil *)

Definition set_sealed (c : Core) (b : bool) : Core :=
  mkCore (ha c) (advertiseAddr c) (physicalIsCache c) b (standby c)
         (standbyRunning c) (unlockParts c) (metricsRunning c).
Definition set_standby (c : Core) (b : bool) : Core :=
  mkCore (ha c) (advertiseAddr c) (physicalIsCache c) (sealed c) b
         (standbyRunning c) (unlockParts c) (metricsRunning c).
Definition set_standbyRunning (c : Core) (b : bool) : Core :=
  mkCore (ha c) (advertiseAddr c) (physicalIsCache c) (sealed c) (standby c)
         b (unlockParts c) (metricsRunning c).
Definition set_unlockParts (c : Core) (p : list bytes) : Core :=
  mkCore (ha c) (advertiseAddr c) (physicalIsCache c) (sealed c) (standby c)
         (standbyRunning c) p (metricsRunning c).
Definition set_metricsRunning (c : Core) (b : bool) : Core :=
  mkCore (ha c) (advertiseAddr c) (physicalIsCache c) (sealed c) (standby c)
         (standbyRunning c) (unlockParts c) b.

(** ** Behaviour of the collaborators *)

Record Env := mkEnv {
  (* package constants declared outside core.go *)
  defaultLeaseDuration : Z;
  maxLeaseDuration : Z;
  ShareOverhead : Z;                               (* shamir.ShareOverhead *)
  (* physical backend and JSON decoding of the seal configuration *)
  physicalGet : string -> result (option bytes);
  decodeSealConfig : bytes -> result SealConfig;
  (* security barrier *)
  barrierKeyLength : Z * Z;
  barrierUnseal : bytes -> option error;
  barrierSeal : option error;
  barrierGet : string -> result (option bytes);
  barrierPut : string -> bytes -> option error;
  barrierDelete : string -> option error;
  (* shamir *)
  shamirCombine : list bytes -> result bytes;
  (* HA backend *)
  haLockWith : string -> string -> result Lock;
  generateUUID : string;
  (* token store, policy store, router *)
  tokenLookup : string -> result (option TokenEntry.t);
  useToken : TokenEntry.t -> option error;
  tokenCreate : TokenEntry.t -> result string;     (* the ID assigned by Create *)
  policyACL : list string -> result ACL;
  routerLoginPath : string -> bool;
  routerRootPath : string -> bool;
  routerMatchingMount : string -> string;
  routerRoute : Request.t -> option Response.t * option error;
  (* audit broker and expiration manager *)
  logRequest : option Auth.t -> Request.t -> option error;
  logResponse : option Auth.t -> Request.t -> option Response.t -> option error -> option error;
  expirationRegister : Request.t -> Response.t -> result string;
  expirationRegisterAuth : string -> Auth.t -> option error;
  (* mount, credential, audit, policy, rollback and expiration bring-up / tear-down *)
  postUnsealStep : PostUnsealStep -> option error;
  preSealStep : PreSealStep -> option error }.

(** ** A state monad over [Core] that records the collaborator calls *)

Definition M (A : Type) : Type := Core -> Core * list event * A.

Definition ret {A} (a : A) : M A := fun c => (c, [], a).
Definition bind {A B} (m : M A) (k : A -> M B) : M B :=
  fun c => let '(c1, t1, a) := m c in
           let '(c2, t2, b) := k a c1 in (c2, app t1 t2, b).
Definition emit (e : event) : M unit := fun c => (c, [e], tt).
Definition get : M Core := fun c => (c, [], c).
Definition put (c' : Core) : M unit := fun _ => (c', [], tt).

Notation "x <- m ;; k" := (bind m (fun x => k))
  (at level 61, m at next level, right associativity).
Notation "m ;; k" := (bind m (fun _ => k)) (at level 61, right associativity).

Section Core.

Variable env : Env.

(** ** The request pipeline *)

(** [Core.checkToken] *)
Definition checkToken (op : Operation) (path token : string) : M (result Auth.t) :=
  if String.eqb token "" then ret (Err (ErrMsg "missing client token")) else
  emit (EvTokenLookup token) ;;
  match tokenLookup env token with
  | Err _ => ret (Err ErrInternalError)
  | Ok None => ret (Err ErrPermissionDenied)
  | Ok (Some te) =>
      emit (EvUseToken te) ;;
      match useToken env te with
      | Some _ => ret (Err ErrInternalError)
      | None =>
          emit (EvPolicyACL (TokenEntry.Policies te)) ;;
          match policyACL env (TokenEntry.Policies te) with
          | Err _ => ret (Err ErrInternalError)
          | Ok acl =>
              if routerRootPath env path && negb (RootPrivilege acl path)
              then ret (Err ErrPermissionDenied)
              else if negb (AllowOperation acl op path)
              then ret (Err ErrPermissionDenied)
              else ret (Ok (Auth.mk token (TokenEntry.Policies te) (TokenEntry.Meta te)
                                    (TokenEntry.DisplayName te) 0))
          end
      end
  end.

(** The two lease adjustments of handleRequest for a secret. *)
Definition secretLease (l : Z) : Z :=
  let l := if l =? 0 then defaultLeaseDuration env else l in
  if l >? maxLeaseDuration env then maxLeaseDuration env else l.

(** The two lease adjustments for an auth block: root tokens are exempt from
    the default lease. *)
Definition authLease (a : Auth.t) : Z :=
  let l := if (Auth.Lease a =? 0) && negb (strListContains (Auth.Policies a) "root")
           then defaultLeaseDuration env else Auth.Lease a in
  if l >? maxLeaseDuration env then maxLeaseDuration env else l.

(** The [resp.Secret != nil] block of handleRequest; [Err e] is an early
    [return nil, e]. *)
Definition handleSecret (req : Request.t) (resp : option Response.t)
  : M (result (option Response.t)) :=
  match resp with
  | Some r =>
      match Response.Secret r with
      | Some s =>
          let s1 := set_secret_lease s (secretLease (Secret.Lease s)) in
          let r1 := with_secret r s1 in
          emit (EvRegister req r1) ;;
          match expirationRegister env req r1 with
          | Err _ => ret (Err ErrInternalError)
          | Ok leaseID => ret (Ok (Some (with_secret r1 (set_secret_leaseid s1 leaseID))))
          end
      | None => ret (Ok resp)
      end
  | None => ret (Ok None)
  end.

(** The [resp.Auth != nil] block of handleRequest. *)
Definition handleAuth (req : Request.t) (resp : option Response.t)
  : M (result (option Response.t)) :=
  match resp with
  | Some r =>
      match Response.Auth r with
      | Some a =>
          if negb (HasPrefix (Request.Path req) "auth/token/")
          then ret (Err ErrInternalError)
          else
            let a1 := set_auth_lease a (authLease a) in
            emit (EvRegisterAuth (Request.Path req) a1) ;;
            match expirationRegisterAuth env (Request.Path req) a1 with
            | Some _ => ret (Err ErrInternalError)
            | None => ret (Ok (Some (with_auth r a1)))
            end
      | None => ret (Ok resp)
      end
  | None => ret (Ok None)
  end.

(** The final audit of the response. *)
Definition auditResponse (auth : option Auth.t) (req : Request.t)
  (resp : option Response.t) (err : option error) : M (option Response.t * option error) :=
  emit (EvLogResponse auth req resp) ;;
  match logResponse env auth req resp err with
  | Some _ => ret (None, Some ErrInternalError)
  | None => ret (resp, err)
  end.

(** [Core.handleRequest] *)
Definition handleRequest (req : Request.t) : M (option Response.t * option error) :=
  r <- checkToken (Request.Operation req) (Request.Path req) (Request.ClientToken req) ;;
  match r with
  | Err e =>
      let errType := match e with
                     | ErrInternalError | ErrPermissionDenied => e
                     | _ => ErrInvalidRequest
                     end in
      ret (Some (ErrorResponse (errorString e)), Some errType)
  | Ok auth =>
      let req := set_req_display_name req (Auth.DisplayName auth) in
      emit (EvLogRequest (Some auth) req) ;;
      match logRequest env (Some auth) req with
      | Some _ => ret (None, Some ErrInternalError)
      | None =>
          emit (EvRoute req) ;;
          let '(resp, err) := routerRoute env req in
          r1 <- handleSecret req resp ;;
          match r1 with
          | Err e => ret (None, Some e)
          | Ok resp =>
              r2 <- handleAuth req resp ;;
              match r2 with
              | Err e => ret (None, Some e)
              | Ok resp => auditResponse (Some auth) req resp err
              end
          end
      end
  end.

(** [Core.handleLoginRequest] *)
Definition handleLoginRequest (req : Request.t) : M (option Response.t * option error) :=
  emit (EvLogRequest None req) ;;
  match logRequest env None req with
  | Some _ => ret (None, Some ErrInternalError)
  | None =>
      emit (EvRoute req) ;;
      let '(resp, err) := routerRoute env req in
      match resp with
      | Some r =>
          match Response.Auth r with
          | Some auth =>
              let source := routerMatchingMount env (Request.Path req) in
              let source := TrimPrefix source credentialRoutePrefix in
              let source := replaceSlashDash source in
              let auth := set_auth_display_name auth
                            (TrimSuffix (String.append source (Auth.DisplayName auth)) "-") in
              let te := TokenEntry.mk "" (Request.Path req) (Auth.Policies auth)
                                      (Auth.Metadata auth) (Auth.DisplayName auth) in
              emit (EvTokenCreate te) ;;
              match tokenCreate env te with
              | Err _ => ret (None, Some ErrInternalError)
              | Ok id =>
                  let auth := set_auth_client_token auth id in
                  let auth := set_auth_lease auth (authLease auth) in
                  emit (EvRegisterAuth (Request.Path req) auth) ;;
                  match expirationRegisterAuth env (Request.Path req) auth with
                  | Some _ => ret (None, Some ErrInternalError)
                  | None =>
                      let req := set_req_display_name req (Auth.DisplayName auth) in
                      auditResponse (Some auth) req (Some (with_auth r auth)) err
                  end
              end
          | None => auditResponse None req resp err
          end
      | None => auditResponse None req resp err
      end
  end.

(** [Core.HandleRequest] *)
Definition HandleRequest (req : Request.t) : M (option Response.t * option error) :=
  c <- get ;;
  if sealed c then ret (None, Some ErrSealed)
  else if standby c then ret (None, Some ErrStandby)
  else if routerLoginPath env (Request.Path req)
  then handleLoginRequest req
  else handleRequest req.

End Core.

(** [fmt.Sprintf("%d", n)] *)
Fixpoint digits (fuel : nat) (n : Z) (acc : string) : string :=
  match fuel with
  | O => acc
  | S f =>
      let acc := String (ascii_of_nat (48 + Z.to_nat (n mod 10))) acc in
      if n / 10 =? 0 then acc else digits f (n / 10) acc
  end.

Definition showZ (n : Z) : string :=
  if n <? 0 then String "-" (digits 20 (- n) "") else digits 20 n "".

Section SealStateMachine.

Variable env : Env.

(** [Core.SealConfig] (renamed: the record type owns the name). *)
Definition getSealConfig : M (result (option SealConfig)) :=
  match physicalGet env coreSealConfigPath with
  | Err e => ret (Err (ErrMsg (String.append "failed to check seal configuration: "
                                             (errorString e))))
  | Ok None => ret (Ok None)
  | Ok (Some v) =>
      match decodeSealConfig env v with
      | Err e => ret (Err (ErrMsg (String.append "failed to decode seal configuration: "
                                                 (errorString e))))
      | Ok conf =>
          match Validate conf with
          | Some e => ret (Err (ErrMsg (String.append "seal validation failed: "
                                                      (errorString e))))
          | None => ret (Ok (Some conf))
          end
      end
  end.

Definition purgeCache : M unit :=
  c <- get ;;
  if physicalIsCache c then emit EvCachePurge else ret tt.

Definition runPostUnsealStep (s : PostUnsealStep) : M (option error) :=
  emit (EvPostUnsealStep s) ;; ret (postUnsealStep env s).

(** [Core.postUnseal], each [if err := ...; err != nil { return ... }] as
    written in the source. *)
Definition postUnseal : M (option error) :=
  purgeCache ;;
  e <- runPostUnsealStep LoadMounts ;;
  match e with Some err => ret (Some err) | None =>
  e <- runPostUnsealStep SetupMounts ;;
  match e with Some err => ret (Some err) | None =>
  e <- runPostUnsealStep StartRollback ;;
  match e with Some err => ret (Some err) | None =>
  e <- runPostUnsealStep SetupPolicyStore ;;
  match e with Some _ => ret None | None =>
  e <- runPostUnsealStep LoadCredentials ;;
  match e with Some _ => ret None | None =>
  e <- runPostUnsealStep SetupCredentials ;;
  match e with Some _ => ret None | None =>
  e <- runPostUnsealStep SetupExpiration ;;
  match e with Some err => ret (Some err) | None =>
  e <- runPostUnsealStep LoadAudits ;;
  match e with Some err => ret (Some err) | None =>
  e <- runPostUnsealStep SetupAudits ;;
  match e with Some err => ret (Some err) | None =>
  c <- get ;;
  put (set_metricsRunning c true) ;;
  emit EvEmitMetricsStart ;;
  emit EvPostUnsealComplete ;;
  ret None
  end end end end end end end end end.

(** The chain of teardown calls of preSeal, each returning on error. *)
Fixpoint runPreSealSteps (l : list PreSealStep) : M (option error) :=
  match l with
  | [] => ret None
  | s :: rest =>
      emit (EvPreSealStep s) ;;
      match preSealStep env s with
      | Some err => ret (Some err)
      | None => runPreSealSteps rest
      end
  end.

(** [Core.preSeal] *)
Definition preSeal : M (option error) :=
  emit EvPreSealStart ;;
  c <- get ;;
  (if metricsRunning c
   then emit EvMetricsStop ;; put (set_metricsRunning c false)
   else ret tt) ;;
  e <- runPreSealSteps [TeardownAudits; StopExpiration; TeardownCredentials;
                        TeardownPolicyStore; StopRollback; UnloadMounts] ;;
  match e with
  | Some err => ret (Some err)
  | None => purgeCache ;; emit EvPreSealComplete ;; ret None
  end.

(** [Core.Unseal] *)
Definition Unseal (key : bytes) : M (bool * option error) :=
  let '(min, max) := barrierKeyLength env in
  let max := max + ShareOverhead env in
  if Z.of_nat (List.length key) <? min then
    ret (false, Some (ErrInvalidKey (String.append "key is shorter than minimum "
                                       (String.append (showZ min) " bytes"))))
  else if Z.of_nat (List.length key) >? max then
    ret (false, Some (ErrInvalidKey (String.append "key is longer than maximum "
                                       (String.append (showZ max) " bytes"))))
  else
  rc <- getSealConfig ;;
  match rc with
  | Err e => ret (false, Some e)
  | Ok None => ret (false, Some ErrNotInit)
  | Ok (Some config) =>
      c <- get ;;
      if negb (sealed c) then ret (true, None) else
      if existsb (fun existing => bytes_eqb existing key) (unlockParts c)
      then ret (false, None) else
      let parts := app (unlockParts c) [key] in
      put (set_unlockParts c parts) ;;
      if Z.of_nat (List.length parts) <? SecretThreshold config then ret (false, None) else
      mk <- (if SecretThreshold config =? 1 then
               c <- get ;;
               put (set_unlockParts c []) ;;
               ret (Ok (hd [] parts))
             else
               emit (EvCombine parts) ;;
               c <- get ;;
               put (set_unlockParts c []) ;;
               match shamirCombine env parts with
               | Err e => ret (Err (ErrMsg (String.append "failed to compute master key: "
                                                          (errorString e))))
               | Ok k => ret (Ok k)
               end) ;;
      match mk with
      | Err e => ret (false, Some e)
      | Ok masterKey =>
          emit (EvBarrierUnseal masterKey) ;;
          match barrierUnseal env masterKey with
          | Some e => ret (false, Some e)
          | None =>
              c <- get ;;
              if negb (ha c) then
                put (set_standby c false) ;;
                e <- postUnseal ;;
                match e with
                | Some err => emit EvBarrierSeal ;; ret (false, Some err)
                | None => c <- get ;; put (set_sealed c false) ;; ret (true, None)
                end
              else
                put (set_standbyRunning c true) ;;
                emit EvStandbyStart ;;
                c <- get ;;
                put (set_sealed c false) ;;
                ret (true, None)
          end
      end
  end.

(** What the [runStandby] goroutine does once [standbyStopCh] is closed,
    before it closes [standbyDoneCh].  An active node leaves the wait on
    [leaderCh]/[stopCh]: it clears its leader entry, sets [standby], runs
    [preSeal], releases the lock and runs [preSeal] again (lines 1040-1058),
    then sees [stopCh] closed at the top of the loop and returns.  A standby
    node's goroutine is waiting for the lock and returns when [acquireLock]
    gives no [leaderCh]. *)
Definition standbyShutdown : M unit :=
  c <- get ;;
  if standby c then ret tt else
  emit (EvBarrierDelete (String.append coreLeaderPrefix (generateUUID env))) ;;
  c <- get ;;
  put (set_standby c true) ;;
  _ <- preSeal ;;
  emit EvLockUnlock ;;
  _ <- preSeal ;;
  ret tt.

(** [Core.Seal].  On an HA core, closing [standbyStopCh] is the event
    [EvStandbyStop]; waiting on [standbyDoneCh] runs [standbyShutdown]. *)
Definition Seal (token : string) : M (option error) :=
  c <- get ;;
  if sealed c then ret None else
  r <- checkToken env WriteOperation "sys/seal" token ;;
  match r with
  | Err e => ret (Some e)
  | Ok _ =>
      c <- get ;;
      put (set_sealed c true) ;;
      e <- (if negb (ha c) then
              e <- preSeal ;;
              match e with
              | Some _ => ret (Some (ErrMsg "internal error"))
              | None => ret None
              end
            else
              emit EvStandbyStop ;;
              standbyShutdown ;;
              c <- get ;;
              put (set_standbyRunning c false) ;;
              ret None) ;;
      match e with
      | Some e => ret (Some e)
      | None =>
          emit EvBarrierSeal ;;
          match barrierSeal env with
          | Some e => ret (Some e)
          | None => ret None
          end
      end
  end.

(** ** The HA coordinator *)

Inductive loopCtl := LoopContinue | LoopReturn.

(** One pass of the [for] loop of [Core.runStandby].  [stopped] tells
    whether [stopCh] is closed at the top of the pass.  After the node has
    become active the pass blocks until [leaderCh] or [stopCh] fires; both
    cases continue with the same code, so the wait has no branch here. *)
Definition runStandbyIter (stopped : bool) : M loopCtl :=
  if stopped then ret LoopReturn else
  let uuid := generateUUID env in
  emit (EvLockWith coreLockPath uuid) ;;
  match haLockWith env coreLockPath uuid with
  | Err _ => ret LoopReturn
  | Ok lock =>
      emit EvLockAcquire ;;
      if negb (lockAcquired lock) then ret LoopReturn else
      (* advertiseLeader *)
      c <- get ;;
      let key := String.append coreLeaderPrefix uuid in
      emit (EvBarrierPut key (list_byte_of_string (advertiseAddr c))) ;;
      match barrierPut env key (list_byte_of_string (advertiseAddr c)) with
      | Some _ => emit EvLockUnlock ;; ret LoopContinue
      | None =>
          err <- postUnseal ;;
          (match err with
           | None => c <- get ;; put (set_standby c false)
           | Some _ => ret tt
           end) ;;
          match err with
          | Some _ => emit EvLockUnlock ;; ret LoopContinue
          | None =>
              (* clearLeader; a failure is only logged *)
              emit (EvBarrierDelete key) ;;
              c <- get ;;
              put (set_standby c true) ;;
              _ <- preSeal ;;
              emit EvLockUnlock ;;
              e <- preSeal ;;
              match e with
              | Some _ => ret LoopContinue
              | None => ret LoopContinue
              end
          end
      end
  end.

(** [Core.runStandby], run for the passes whose stop flags are listed. *)
Fixpoint runStandby (stops : list bool) : M unit :=
  match stops with
  | [] => ret tt
  | s :: rest =>
      k <- runStandbyIter s ;;
      match k with
      | LoopReturn => ret tt
      | LoopContinue => runStandby rest
      end
  end.

(** [Core.Leader] *)
Definition Leader : M (bool * string * option error) :=
  c <- get ;;
  if negb (ha c) then ret (false, ""%string, Some ErrHANotEnabled) else
  if sealed c then ret (false, ""%string, Some ErrSealed) else
  if negb (standby c) then ret (true, advertiseAddr c, None) else
  emit (EvLockWith coreLockPath "read") ;;
  match haLockWith env coreLockPath "read" with
  | Err e => ret (false, ""%string, Some e)
  | Ok lock =>
      emit EvLockValue ;;
      match lockValue lock with
      | Err e => ret (false, ""%string, Some e)
      | Ok (held, value) =>
          if negb held then ret (false, ""%string, None) else
          let key := String.append coreLeaderPrefix value in
          emit (EvBarrierGet key) ;;
          match barrierGet env key with
          | Err e => ret (false, ""%string, Some e)
          | Ok None => ret (false, ""%string, None)
          | Ok (Some entry) => ret (false, string_of_list_byte entry, None)
          end
      end
  end.

End SealStateMachine.

(** [Core.SecretProgress] *)
Definition SecretProgress : M Z :=
  c <- get ;; ret (Z.of_nat (List.length (unlockParts c))).

(** The key lengths [Unseal] accepts. *)
Definition validKeyLength (env : Env) (key : bytes) : bool :=
  let '(min, max) := barrierKeyLength env in
  (min <=? Z.of_nat (List.length key)) && (Z.of_nat (List.length key) <=? max + ShareOverhead env).

(** The master key Unseal recovers from the accepted parts. *)
Definition recoverMasterKey (env : Env) (config : SealConfig) (parts : list bytes) : result bytes :=
  if SecretThreshold config =? 1 then Ok (hd [] parts) else shamirCombine env parts.

(** Number of preSeal runs in a trace. *)
Definition countPreSeal (tr : list event) : nat :=
  List.length (filter (fun e => match e with EvPreSealStart => true | _ => false end) tr).

(** ** Concrete collaborators, for evaluating the Core on explicit inputs *)

Definition okACL : ACL := mkACL (fun _ => true) (fun _ _ => true).

Definition testEnv (cfg : SealConfig) (master : bytes)
  (postStep : PostUnsealStep -> option error)
  (lookup : string -> result (option TokenEntry.t))
  (route : Request.t -> option Response.t * option error) : Env :=
  mkEnv
    2592000 2592000 1
    (fun p => if String.eqb p coreSealConfigPath then Ok (Some []) else Ok None)
    (fun _ => Ok cfg)
    (2, 2)
    (fun k => if bytes_eqb k master then None
              else Some (ErrInvalidKey "message authentication failed"))
    None
    (fun k => if String.eqb k (String.append coreLeaderPrefix "uuid-a")
              then Ok (Some (list_byte_of_string "https://a:8200")) else Ok None)
    (fun _ _ => None)
    (fun _ => None)
    (fun parts => Ok (List.concat parts))
    (fun _ v => Ok (mkLock (Ok (true, "uuid-a"%string)) true))
    "uuid-b"
    lookup
    (fun _ => None)
    (fun _ => Ok "token-id"%string)
    (fun _ => Ok okACL)
    (fun p => String.prefix "auth/userpass/login" p)
    (fun _ => false)
    (fun _ => "auth/userpass/"%string)
    route
    (fun _ _ => None)
    (fun _ _ _ _ => None)
    (fun _ _ => Ok "lease-1"%string)
    (fun _ _ => None)
    postStep
    (fun _ => None).

Definition noRoute (_ : Request.t) : option Response.t * option error := (None, None).
Definition noToken (_ : string) : result (option TokenEntry.t) := Ok None.
Definition allSteps (_ : PostUnsealStep) : option error := None.

Definition keyA : bytes := [Byte.x01; Byte.x02].
Definition keyB : bytes := [Byte.x03; Byte.x04].
Definition keyWrong : bytes := [Byte.x05; Byte.x06].

(** A sealed core, non-HA, with [parts] accepted. *)
Definition sealedCore (hasHA : bool) (parts : list bytes) : Core :=
  mkCore hasHA "https://b:8200" false true true false parts false.

(** An unsealed core. *)
Definition unsealedCore (hasHA isStandby : bool) : Core :=
  mkCore hasHA "https://b:8200" false false isStandby hasHA [] true.

Definition req (path token : string) : Request.t :=
  Request.mk ReadOperation path token "".

(** A postUnseal step environment in which only SetupPolicyStore fails. *)
Definition policyStoreFails (s : PostUnsealStep) : option error :=
  match s with
  | SetupPolicyStore => Some (ErrMsg "failed to setup policy store")
  | _ => None
  end.

(** A root token, a token-store response minting a root child token, and a
    backend response carrying a secret with no lease. *)
Definition rootTokenEntry : TokenEntry.t :=
  TokenEntry.mk "root-token" "" ["root"%string] [] "root".
Definition lookupRoot (t : string) : result (option TokenEntry.t) :=
  if String.eqb t "root-token" then Ok (Some rootTokenEntry) else Ok None.
Definition rootTokenAuth : Auth.t := Auth.mk "root-token" ["root"%string] [] "root" 0.
Definition rootChildAuth : Auth.t := Auth.mk "" ["root"%string] [] "" 0.
Definition routeRootAuth (_ : Request.t) : option Response.t * option error :=
  (Some (Response.mk None (Some rootChildAuth) []), None).
Definition secretResponse : Response.t :=
  Response.mk (Some (Secret.mk 0 "")) None [("value"%string, "1"%string)].
Definition routeSecret (_ : Request.t) : option Response.t * option error :=
  (Some secretResponse, None).
Definition rootEnv : Env := testEnv (mkSealConfig 1 1) keyA allSteps lookupRoot routeRootAuth.
Definition secretEnv : Env := testEnv (mkSealConfig 1 1) keyA allSteps lookupRoot routeSecret.

(** ** Initialization *)

(** The collaborators [Core.Initialized] and [Core.Initialize] call besides
    those of [Env]. *)
Record InitEnv := mkInitEnv {
  barrierInitialized : result bool;                 (* barrier.Initialized() *)
  encodeSealConfig : SealConfig -> bytes;            (* json.Marshal, which cannot fail on
                                                        a struct of two ints *)
  physicalPut : string -> bytes -> option error;     (* physical.Put *)
  barrierGenerateKey : result bytes;                 (* barrier.GenerateKey() *)
  barrierInitialize : bytes -> option error;         (* barrier.Initialize(key) *)
  shamirSplit : bytes -> Z -> Z -> result (list bytes);  (* shamir.Split *)
  tokenStoreRootToken : result string }.             (* tokenStore.RootToken(), its ID *)

(** The calls of the initialization code; [IEvCore] wraps the calls of the
    code it shares with unsealing and sealing. *)
Inductive initEvent :=
| IEvCore (e : event)
| IEvBarrierInitialized
| IEvPhysicalPut (key : string) (value : bytes)
| IEvGenerateKey
| IEvBarrierInitialize (key : bytes)
| IEvShamirSplit (key : bytes) (n t : Z)
| IEvRootToken.

(** [InitResult] *)
Record InitResult := mkInitResult {
  InitSecretShares : list bytes;
  RootToken : string }.

(** The state monad of [M], over the initialization events. *)
Definition MI (A : Type) : Type := Core -> Core * list initEvent * A.

Definition iret {A} (a : A) : MI A := fun c => (c, [], a).
Definition ibind {A B} (m : MI A) (k : A -> MI B) : MI B :=
  fun c => let '(c1, t1, a) := m c in
           let '(c2, t2, b) := k a c1 in (c2, app t1 t2, b).
Definition iemit (e : initEvent) : MI unit := fun c => (c, [e], tt).

(** Running a computation of [M] inside [MI]. *)
Definition liftM {A} (m : M A) : MI A :=
  fun c => let '(c1, t, a) := m c in (c1, map IEvCore t, a).

Module InitNotations.
Notation "x <-- m ;;; k" := (ibind m (fun x => k))
  (at level 61, m at next level, right associativity).
Notation "m ;;; k" := (ibind m (fun _ => k)) (at level 61, right associativity).
End InitNotations.
Import InitNotations.

Section Initialization.

Variable env : Env.
Variable ienv : InitEnv.

(** [Core.Initialized].  The second [if !init] of the source is dead code. *)
Definition Initialized : MI (bool * option error) :=
  iemit IEvBarrierInitialized ;;;
  match barrierInitialized ienv with
  | Err e => iret (false, Some e)
  | Ok false => iret (false, None)
  | Ok true =>
      rc <-- liftM (getSealConfig env) ;;;
      match rc with
      | Err e => iret (false, Some e)
      | Ok None => iret (false, None)
      | Ok (Some _) => iret (true, None)
      end
  end.

(** The part of [Core.Initialize] that runs once the barrier is unsealed,
    before the deferred [barrier.Seal()]. *)
Definition initializeUnsealed (shares : list bytes) : MI (option InitResult * option error) :=
  e <-- liftM (postUnseal env) ;;;
  match e with
  | Some err => iret (None, Some err)
  | None =>
      iemit IEvRootToken ;;;
      match tokenStoreRootToken ienv with
      | Err err => iret (None, Some err)
      | Ok rootToken =>
          e <-- liftM (preSeal env) ;;;
          match e with
          | Some err => iret (None, Some err)
          | None => iret (Some (mkInitResult shares rootToken), None)
          end
      end
  end.

(** [Core.Initialize] *)
Definition Initialize (config : SealConfig) : MI (option InitResult * option error) :=
  match Validate config with
  | Some e => iret (None, Some (ErrMsg (String.append "invalid seal configuration: "
                                                      (errorString e))))
  | None =>
  r <-- Initialized ;;;
  match r with
  | (_, Some e) => iret (None, Some e)
  | (true, None) => iret (None, Some ErrAlreadyInit)
  | (false, None) =>
  let buf := encodeSealConfig ienv config in
  iemit (IEvPhysicalPut coreSealConfigPath buf) ;;;
  match physicalPut ienv coreSealConfigPath buf with
  | Some e => iret (None, Some (ErrMsg (String.append "failed to check seal configuration: "
                                                      (errorString e))))
  | None =>
  iemit IEvGenerateKey ;;;
  match barrierGenerateKey ienv with
  | Err e => iret (None, Some (ErrMsg (String.append "master key generation failed: "
                                                     (errorString e))))
  | Ok masterKey =>
  iemit (IEvBarrierInitialize masterKey) ;;;
  match barrierInitialize ienv masterKey with
  | Some e => iret (None, Some (ErrMsg (String.append "failed to initialize barrier: "
                                                      (errorString e))))
  | None =>
  sh <-- (if SecretShares config =? 1 then iret (Ok [masterKey]) else
          iemit (IEvShamirSplit masterKey (SecretShares config) (SecretThreshold config)) ;;;
          match shamirSplit ienv masterKey (SecretShares config) (SecretThreshold config) with
          | Err e => iret (Err (ErrMsg (String.append "failed to generate shares: "
                                                      (errorString e))))
          | Ok shares => iret (Ok shares)
          end) ;;;
  match sh with
  | Err e => iret (None, Some e)
  | Ok shares =>
  liftM (emit (EvBarrierUnseal masterKey)) ;;;
  match barrierUnseal env masterKey with
  | Some e => iret (None, Some (ErrMsg (String.append "failed to unseal barrier: "
                                                      (errorString e))))
  | None =>
      r <-- initializeUnsealed shares ;;;
      (* the deferred barrier.Seal(); its error is only logged *)
      liftM (emit EvBarrierSeal) ;;;
      iret r
  end end end end end end end.

End Initialization.

(** ** Construction of a Core *)

(** The physical backend handed to [NewCore], as far as NewCore inspects its
    dynamic type. *)
Record PhysicalBackend := mkPhysicalBackend {
  physIsHA : bool;      (* implements physical.HABackend *)
  physIsCache : bool;   (* is a *physical.Cache *)
  physIsInmem : bool }. (* is a *physical.InmemBackend *)

(** Backend factories: those of the configuration, named by their key in the
    configuration's map, and the built-in ones NewCore installs. *)
Inductive Factory :=
| ConfigFactory (name : string)
| PassthroughBackendFactory
| SystemBackendFactory           (* func(...) { return NewSystemBackend(c), nil } *)
| TokenStoreFactory.             (* func(...) { return NewTokenStore(c) } *)

(** [CoreConfig]; [Logger] and [CacheSize] only shape collaborators. *)
Record CoreConfig := mkCoreConfig {
  LogicalBackends : string -> option Factory;
  CredentialBackends : string -> option Factory;
  AuditBackends : string -> option string;
  Physical : PhysicalBackend;
  DisableCache : bool;
  DisableMlock : bool;
  CacheSize : Z;
  AdvertiseAddr : string }.

(** The outcomes of the system calls NewCore makes. *)
Record NewCoreEnv := mkNewCoreEnv {
  mlockLockMemory : option error;     (* mlock.LockMemory() *)
  newAESGCMBarrier : option error }.  (* the error of NewAESGCMBarrier *)

(** The backend maps of the constructed Core. *)
Record CoreBackends := mkCoreBackends {
  logicalBackends : string -> option Factory;
  credentialBackends : string -> option Factory;
  auditBackends : string -> option string }.

(** [m[k] = v] on a Go map. *)
Definition mapInsert {A} (m : string -> option A) (k : string) (v : A) : string -> option A :=
  fun k' => if String.eqb k' k then Some v else m k'.

Definition mlockAdvice : string :=
"

This usually means that the mlock syscall is not available.
Vault uses mlock to prevent memory from being swapped to
disk. This requires root privileges as well as a machine
that supports mlock. Please enable mlock on your system or
disable Vault from using it. To disable Vault from using it,
set the `disable_mlock` configuration option in your configuration
file.".

(** [NewCore] *)
Definition NewCore (nenv : NewCoreEnv) (conf : CoreConfig) : result (Core * CoreBackends) :=
  let haBackend := physIsHA (Physical conf) in
  if haBackend && String.eqb (AdvertiseAddr conf) "" then
    Err (ErrMsg "missing advertisement address") else
  (* wrap the backend in a cache unless disabled *)
  let isCache := physIsCache (Physical conf) in
  let isInmem := physIsInmem (Physical conf) in
  let physicalIsCache :=
    if negb (DisableCache conf) && negb isCache && negb isInmem then true else isCache in
  match (if negb (DisableMlock conf) then mlockLockMemory nenv else None) with
  | Some e => Err (ErrMsg (String.append "Failed to lock memory: "
                             (String.append (errorString e) mlockAdvice)))
  | None =>
  match newAESGCMBarrier nenv with
  | Some e => Err (ErrMsg (String.append "barrier setup failed: " (errorString e)))
  | None =>
      let c := mkCore haBackend (AdvertiseAddr conf) physicalIsCache
                      true true false [] false in
      let logical := mapInsert (mapInsert (LogicalBackends conf) "generic"
                                          PassthroughBackendFactory)
                               "system" SystemBackendFactory in
      let credential := mapInsert (CredentialBackends conf) "token" TokenStoreFactory in
      Ok (c, mkCoreBackends logical credential (AuditBackends conf))
  end
  end.
(** The calls postUnseal and preSeal make, none of them to the barrier. *)
Definition setupEvent (e : event) : bool :=
  match e with
  | EvCachePurge | EvPostUnsealStep _ | EvEmitMetricsStart | EvPostUnsealComplete
  | EvPreSealStart | EvMetricsStop | EvPreSealStep _ | EvPreSealComplete => true
  | _ => false
  end.

(** ** Further concrete inputs *)

(** [env] with other outcomes of [physical.Get] and of the policy store. *)
Definition with_physicalGet (env : Env) (g : string -> result (option bytes)) : Env :=
  mkEnv (defaultLeaseDuration env) (maxLeaseDuration env) (ShareOverhead env) g
    (decodeSealConfig env) (barrierKeyLength env) (barrierUnseal env) (barrierSeal env)
    (barrierGet env) (barrierPut env) (barrierDelete env) (shamirCombine env)
    (haLockWith env) (generateUUID env) (tokenLookup env) (useToken env) (tokenCreate env)
    (policyACL env) (routerLoginPath env) (routerRootPath env) (routerMatchingMount env)
    (routerRoute env) (logRequest env) (logResponse env) (expirationRegister env)
    (expirationRegisterAuth env) (postUnsealStep env) (preSealStep env).

Definition with_policyACL (env : Env) (p : list string -> result ACL) : Env :=
  mkEnv (defaultLeaseDuration env) (maxLeaseDuration env) (ShareOverhead env) (physicalGet env)
    (decodeSealConfig env) (barrierKeyLength env) (barrierUnseal env) (barrierSeal env)
    (barrierGet env) (barrierPut env) (barrierDelete env) (shamirCombine env)
    (haLockWith env) (generateUUID env) (tokenLookup env) (useToken env) (tokenCreate env)
    p (routerLoginPath env) (routerRootPath env) (routerMatchingMount env)
    (routerRoute env) (logRequest env) (logResponse env) (expirationRegister env)
    (expirationRegisterAuth env) (postUnsealStep env) (preSealStep env).

Definition testEnv1 : Env := testEnv (mkSealConfig 1 1) keyA allSteps noToken noRoute.

(** No seal configuration stored yet. *)
Definition freshEnv : Env := with_physicalGet testEnv1 (fun _ => Ok None).

(** A policy that grants reads only. *)
Definition readOnlyACL : ACL :=
  mkACL (fun _ => false) (fun op _ => match op with ReadOperation => true | _ => false end).
Definition readOnlyEnv : Env := with_policyACL secretEnv (fun _ => Ok readOnlyACL).

Definition activeCore : Core := unsealedCore false false.
Definition secretReq : Request.t := req "secret/foo" "root-token".
Definition loginReq : Request.t := Request.mk WriteOperation "auth/userpass/login/alice" "" "".

(** The response [secretEnv] gives [secretReq]: the secret's lease raised to
    the default and the lease id of the expiration manager. *)
Definition secretReply : Response.t :=
  with_secret secretResponse (Secret.mk 2592000 "lease-1").

(** Collaborators of a successful initialization. *)
Definition initEnvOK : InitEnv :=
  mkInitEnv (Ok false) (fun _ => [Byte.x7b; Byte.x7d]) (fun _ _ => None) (Ok keyA)
    (fun _ => None) (fun k n _ => Ok (repeat k (Z.to_nat n))) (Ok "root-id"%string).

(** An HA configuration, and what NewCore builds from it. *)
Definition haConfig : CoreConfig :=
  mkCoreConfig (fun _ => None) (fun _ => None) (fun _ => None)
    (mkPhysicalBackend true false false) false false 0 "https://a:8200".
Definition newCoreOK : NewCoreEnv := mkNewCoreEnv None None.
Definition haCore : Core := mkCore true "https://a:8200" true true true false [] false.
Definition haBackends : CoreBackends :=
  mkCoreBackends
    (mapInsert (mapInsert (fun _ => None) "generic" PassthroughBackendFactory)
               "system" SystemBackendFactory)
    (mapInsert (fun _ => None) "token" TokenStoreFactory)
    (fun _ => None).

Example ex_secretReply :
  fst (snd (HandleRequest secretEnv secretReq activeCore)) = Some secretReply.
Proof. vm_compute. reflexivity. Qed.

Example ex_newCore : NewCore newCoreOK haConfig = Ok (haCore, haBackends).
Proof. reflexivity. Qed.

Example ex_unseal_1of1 :
  snd (Unseal (testEnv (mkSealConfig 1 1) keyA allSteps noToken noRoute) keyA
              (sealedCore false [])) = (true, None).
Proof. reflexivity. Qed.

Example ex_unseal_2of2 :
  let e := testEnv (mkSealConfig 3 2) (app keyA keyB) allSteps noToken noRoute in
  let '(c1, _, r1) := Unseal e keyA (sealedCore false []) in
  let '(c2, _, r2) := Unseal e keyA c1 in
  let '(c3, _, r3) := Unseal e keyB c2 in
  (r1, r2, r3, unlockParts c2, sealed c3) = ((false, None), (false, None), (true, None), [keyA], false).
Proof. reflexivity. Qed.

Example ex_empty_token :
  snd (HandleRequest (testEnv (mkSealConfig 1 1) keyA allSteps noToken noRoute)
                     (req "secret/foo" "") (unsealedCore false false))
  = (Some (ErrorResponse "missing client token"), Some ErrInvalidRequest).
Proof. reflexivity. Qed.

(** ** Properties of the monad *)

Lemma bind_ret_l {A B} (a : A) (k : A -> M B) c : bind (ret a) k c = k a c.
Proof. unfold bind, ret; simpl. destruct (k a c) as [[? ?] ?]; reflexivity. Qed.

Lemma bind_get {B} (k : Core -> M B) c : bind get k c = k c c.
Proof. unfold bind, get; simpl. destruct (k c c) as [[? ?] ?]; reflexivity. Qed.

Lemma bind_emit {B} e (k : unit -> M B) c :
  bind (emit e) k c = let '(c2, t2, b) := k tt c in (c2, e :: t2, b).
Proof. reflexivity. Qed.

Lemma bind_put {B} c' (k : unit -> M B) c : bind (put c') k c = k tt c'.
Proof. unfold bind, put; simpl. destruct (k tt c') as [[? ?] ?]; reflexivity. Qed.

Lemma bind_assoc {A B C} (m : M A) (k : A -> M B) (h : B -> M C) c :
  bind (bind m k) h c = bind m (fun a => bind (k a) h) c.
Proof.
  unfold bind. destruct (m c) as [[c1 t1] a].
  destruct (k a c1) as [[c2 t2] b]. destruct (h b c2) as [[c3 t3] d].
  rewrite app_assoc. reflexivity.
Qed.

Create Rewrite HintDb monad.
#[export] Hint Rewrite @bind_ret_l @bind_get @bind_put @bind_assoc : monad.

(** ** C8: the sealed / standby gate of HandleRequest *)

(** C8: a sealed core answers [ErrSealed] and a standby core [ErrStandby],
    with no call to any collaborator (in particular no routing); an unsealed
    active core dispatches to the login path exactly when the router says the
    path is a login path. *)
Theorem HandleRequest_gate (env : Env) (c : Core) (r : Request.t) :
  (sealed c = true -> HandleRequest env r c = (c, [], (None, Some ErrSealed))) /\
  (sealed c = false -> standby c = true ->
     HandleRequest env r c = (c, [], (None, Some ErrStandby))) /\
  (sealed c = false -> standby c = false ->
     HandleRequest env r c =
       (if routerLoginPath env (Request.Path r)
        then handleLoginRequest env r c else handleRequest env r c)).
Proof.
  unfold HandleRequest. repeat split; intros; autorewrite with monad.
  - rewrite H. reflexivity.
  - rewrite H, H0. reflexivity.
  - rewrite H, H0. destruct (routerLoginPath env (Request.Path r)); reflexivity.
Qed.

Lemma HandleRequest_gate_witness :
  HandleRequest (testEnv (mkSealConfig 1 1) keyA allSteps noToken noRoute)
    (req "secret/foo" "t") (unsealedCore false true)
  = (unsealedCore false true, [], (None, Some ErrStandby)).
Proof.
  apply (proj1 (proj2 (HandleRequest_gate
    (testEnv (mkSealConfig 1 1) keyA allSteps noToken noRoute)
    (unsealedCore false true) (req "secret/foo" "t")))); reflexivity.
Defined.

(** ** C10: sealing a sealed core *)

(** C10: [Seal] on a core that is already sealed returns nil for every token
    (the empty one included): no token check, no teardown, no collaborator
    call and an unchanged core. *)
Theorem Seal_when_sealed (env : Env) (c : Core) (token : string) :
  sealed c = true -> Seal env token c = (c, [], None).
Proof. intros H. unfold Seal. autorewrite with monad. rewrite H. reflexivity. Qed.

Lemma Seal_when_sealed_witness :
  Seal (testEnv (mkSealConfig 1 1) keyA allSteps noToken noRoute) "" (sealedCore false [])
  = (sealedCore false [], [], None).
Proof. apply Seal_when_sealed. reflexivity. Defined.

(** ** C2: a request with an empty client token *)

(** C2 (as stated): the empty token is refused with [ErrPermissionDenied].
    On an unsealed active core the request is answered with
    [ErrInvalidRequest] instead. *)
Lemma HandleRequest_empty_token_not_denied :
  snd (snd (HandleRequest (testEnv (mkSealConfig 1 1) keyA allSteps noToken noRoute)
                          (req "secret/foo" "") (unsealedCore false false)))
  <> Some ErrPermissionDenied.
Proof. vm_compute. discriminate. Qed.

(** C2 (amended): on an unsealed active core, a request for a non-login path
    whose client token is empty fails with [ErrInvalidRequest], its response
    body carrying the message "missing client token"; the token store and the
    router are not called. *)
Theorem HandleRequest_empty_token (env : Env) (c : Core) (r : Request.t) :
  sealed c = false -> standby c = false ->
  routerLoginPath env (Request.Path r) = false ->
  Request.ClientToken r = ""%string ->
  HandleRequest env r c =
    (c, [], (Some (ErrorResponse "missing client token"), Some ErrInvalidRequest)).
Proof.
  intros Hs Hsb Hl Ht. unfold HandleRequest. autorewrite with monad.
  rewrite Hs, Hsb, Hl. unfold handleRequest, checkToken. rewrite Ht.
  autorewrite with monad. reflexivity.
Qed.

Lemma HandleRequest_empty_token_witness :
  HandleRequest (testEnv (mkSealConfig 1 1) keyA allSteps noToken noRoute)
    (req "secret/foo" "") (unsealedCore false false)
  = (unsealedCore false false, [],
     (Some (ErrorResponse "missing client token"), Some ErrInvalidRequest)).
Proof. apply HandleRequest_empty_token; reflexivity. Defined.

(** ** C9: Leader *)

(** C9: without an HA backend [Leader] fails with [ErrHANotEnabled]; with
    one, an unsealed active node answers [(true, advertiseAddr)], and an
    unsealed standby node reads the lock value (the leader's uuid), reads
    [coreLeaderPrefix ++ uuid] from the barrier and answers
    [(false, advertised address)]. *)
Theorem Leader_spec (env : Env) (c : Core) :
  (ha c = false -> Leader env c = (c, [], (false, ""%string, Some ErrHANotEnabled))) /\
  (ha c = true -> sealed c = false -> standby c = false ->
     Leader env c = (c, [], (true, advertiseAddr c, None))) /\
  (forall lock uuid addr,
     ha c = true -> sealed c = false -> standby c = true ->
     haLockWith env coreLockPath "read" = Ok lock ->
     lockValue lock = Ok (true, uuid) ->
     barrierGet env (String.append coreLeaderPrefix uuid) = Ok (Some addr) ->
     Leader env c =
       (c, [EvLockWith coreLockPath "read"; EvLockValue;
            EvBarrierGet (String.append coreLeaderPrefix uuid)],
        (false, string_of_list_byte addr, None))).
Proof.
  unfold Leader. repeat split; intros; autorewrite with monad.
  - rewrite H. reflexivity.
  - rewrite H, H0, H1. reflexivity.
  - rewrite H, H0, H1. cbv beta iota. rewrite H2. cbv beta iota.
    rewrite H3. cbv beta iota. rewrite H4. reflexivity.
Qed.

Lemma Leader_spec_witness :
  Leader (testEnv (mkSealConfig 1 1) keyA allSteps noToken noRoute) (unsealedCore true true)
  = (unsealedCore true true,
     [EvLockWith coreLockPath "read"; EvLockValue;
      EvBarrierGet (String.append coreLeaderPrefix "uuid-a")],
     (false, "https://a:8200"%string, None)).
Proof.
  apply (proj2 (proj2 (Leader_spec (testEnv (mkSealConfig 1 1) keyA allSteps noToken noRoute)
                                   (unsealedCore true true)))
           (mkLock (Ok (true, "uuid-a"%string)) true) "uuid-a"%string
           (list_byte_of_string "https://a:8200")); reflexivity.
Defined.

(** ** C1: failures of the postUnseal steps *)

(** The three steps whose failure postUnseal turns into a nil result. *)
Lemma postUnseal_swallows (env : Env) (c : Core) (s : PostUnsealStep) (e : error) :
  In s [SetupPolicyStore; LoadCredentials; SetupCredentials] ->
  (forall s', s' <> s -> postUnsealStep env s' = None) ->
  postUnsealStep env s = Some e ->
  snd (postUnseal env c) = None.
Proof.
  intros Hin Hother Hs.
  assert (Hok : forall s', In s' [LoadMounts; SetupMounts; StartRollback] ->
                           postUnsealStep env s' = None).
  { intros s' Hs'. apply Hother. intros ->.
    simpl in Hin, Hs'. intuition congruence. }
  unfold postUnseal, runPostUnsealStep, purgeCache.
  autorewrite with monad.
  rewrite !Hok by (simpl; tauto).
  destruct (physicalIsCache c);
  simpl in Hin; destruct Hin as [<- | [<- | [<- | []]]];
  repeat (rewrite Hs || rewrite Hother by discriminate); reflexivity.
Qed.

(** C1 (the claim holds for the other steps, not for these three): on a
    sealed non-HA core with threshold 1, submitting the right key while the
    policy store fails to set up makes postUnseal report success: Unseal
    answers [(true, nil)], the core is unsealed and the barrier is never
    resealed. *)
Theorem Unseal_policy_store_failure_unseals :
  let env := testEnv (mkSealConfig 1 1) keyA policyStoreFails noToken noRoute in
  let '(c', tr, r) := Unseal env keyA (sealedCore false []) in
  r = (true, None) /\ sealed c' = false /\
  In (EvPostUnsealStep SetupPolicyStore) tr /\ ~ In EvBarrierSeal tr /\
  snd (postUnseal env (set_standby (sealedCore false []) false)) = None.
Proof.
  vm_compute. repeat split; auto 20.
  intros H. repeat (destruct H as [H | H]; [discriminate H |]). exact H.
Qed.

(** ** C4: the standby loop *)

Lemma countPreSeal_app (a b : list event) :
  countPreSeal (a ++ b) = (countPreSeal a + countPreSeal b)%nat.
Proof. unfold countPreSeal. rewrite filter_app, length_app. reflexivity. Qed.

Lemma countPreSeal_cons (e : event) (t : list event) :
  countPreSeal (e :: t) =
  ((match e with EvPreSealStart => 1 | _ => 0 end) + countPreSeal t)%nat.
Proof. unfold countPreSeal. simpl. destruct e; reflexivity. Qed.

Lemma postUnseal_no_preSeal (env : Env) (c : Core) :
  countPreSeal (snd (fst (postUnseal env c))) = 0%nat.
Proof.
  unfold postUnseal, runPostUnsealStep, purgeCache.
  unfold bind, emit, get, put, ret. cbn.
  destruct (physicalIsCache c);
  repeat (match goal with |- context [postUnsealStep env ?s] =>
            destruct (postUnsealStep env s) end; cbn); reflexivity.
Qed.

Lemma runPreSealSteps_no_preSeal (env : Env) (l : list PreSealStep) (c : Core) :
  countPreSeal (snd (fst (runPreSealSteps env l c))) = 0%nat.
Proof.
  revert c. induction l as [| s l IH]; intros c; [reflexivity |].
  simpl. unfold bind, emit. cbn.
  destruct (preSealStep env s); cbn; [reflexivity |].
  specialize (IH c). destruct (runPreSealSteps env l c) as [[c' t'] r'].
  simpl in IH |- *. rewrite countPreSeal_cons. exact IH.
Qed.

Lemma preSeal_once (env : Env) (c : Core) :
  countPreSeal (snd (fst (preSeal env c))) = 1%nat.
Proof.
  unfold preSeal, purgeCache, bind, emit, get, put, ret.
  cbn -[runPreSealSteps countPreSeal].
  set (steps := [TeardownAudits; StopExpiration; TeardownCredentials;
                 TeardownPolicyStore; StopRollback; UnloadMounts]).
  destruct (metricsRunning c); cbn -[runPreSealSteps countPreSeal];
  match goal with |- context [runPreSealSteps env steps ?c'] =>
    pose proof (runPreSealSteps_no_preSeal env steps c') as Hn;
    destruct (runPreSealSteps env steps c') as [[c1 t1] r1]
  end; simpl in Hn;
  destruct r1; cbn -[countPreSeal];
  try (destruct (physicalIsCache c1); cbn -[countPreSeal]);
  rewrite ?app_nil_r; repeat (rewrite countPreSeal_cons || rewrite countPreSeal_app);
  rewrite Hn; reflexivity.
Qed.

(** C4: a pass of the standby loop that becomes active (lock acquired,
    leader advertised, postUnseal successful) and then steps down (leadership
    lost or stop signalled) runs preSeal twice: once under the state lock and
    once more after unlocking. *)
Theorem runStandby_preSeal_twice (env : Env) (c : Core) (lock : Lock) :
  haLockWith env coreLockPath (generateUUID env) = Ok lock ->
  lockAcquired lock = true ->
  barrierPut env (String.append coreLeaderPrefix (generateUUID env))
             (list_byte_of_string (advertiseAddr c)) = None ->
  snd (postUnseal env c) = None ->
  countPreSeal (snd (fst (runStandbyIter env false c))) = 2%nat.
Proof.
  intros H1 H2 H3 H4.
  pose proof (postUnseal_no_preSeal env c) as Hp.
  unfold runStandbyIter. cbv zeta. rewrite H1.
  unfold bind, emit, get, put, ret.
  cbn -[coreLeaderPrefix String.append postUnseal preSeal list_byte_of_string].
  rewrite H2. cbn -[coreLeaderPrefix String.append postUnseal preSeal list_byte_of_string].
  rewrite H3. cbn -[coreLeaderPrefix String.append postUnseal preSeal list_byte_of_string].
  destruct (postUnseal env c) as [[c1 t1] r1]. simpl in H4, Hp. subst r1.
  cbn -[coreLeaderPrefix String.append preSeal list_byte_of_string countPreSeal].
  match goal with |- context [preSeal env ?c'] =>
    pose proof (preSeal_once env c') as Ha;
    destruct (preSeal env c') as [[c2 t2] r2] end.
  cbn -[coreLeaderPrefix String.append preSeal list_byte_of_string countPreSeal].
  match goal with |- context [preSeal env ?c'] =>
    pose proof (preSeal_once env c') as Hb;
    destruct (preSeal env c') as [[c3 t3] r3] end.
  simpl in Ha, Hb.
  destruct r3; cbn -[coreLeaderPrefix String.append countPreSeal];
  rewrite app_nil_r; repeat (rewrite countPreSeal_cons || rewrite countPreSeal_app);
  rewrite Hp, Ha, Hb; reflexivity.
Qed.

Lemma runStandby_preSeal_twice_witness :
  countPreSeal (snd (fst (runStandbyIter
    (testEnv (mkSealConfig 1 1) keyA allSteps noToken noRoute) false (unsealedCore true true)))) = 2%nat.
Proof.
  apply (runStandby_preSeal_twice _ _ (mkLock (Ok (true, "uuid-a"%string)) true));
  vm_compute; reflexivity.
Defined.

(** ** C7 and C3: Unseal *)

Lemma bind_pure {A B} (m : M A) (k : A -> M B) c a :
  m c = (c, [], a) -> bind m k c = k a c.
Proof. intros H. unfold bind. rewrite H. destruct (k a c) as [[? ?] ?]; reflexivity. Qed.

Lemma getSealConfig_pure (env : Env) (c : Core) :
  getSealConfig env c = (c, [], snd (getSealConfig env c)).
Proof.
  unfold getSealConfig.
  destruct (physicalGet env coreSealConfigPath) as [[v|]|e]; try reflexivity.
  destruct (decodeSealConfig env v) as [conf|e]; try reflexivity.
  destruct (Validate conf); reflexivity.
Qed.

Lemma Unseal_duplicate (env : Env) (c : Core) (key : bytes) (config : SealConfig) :
  sealed c = true -> snd (getSealConfig env c) = Ok (Some config) ->
  validKeyLength env key = true ->
  existsb (fun existing => bytes_eqb existing key) (unlockParts c) = true ->
  Unseal env key c = (c, [], (false, None)).
Proof.
  intros Hs Hcfg Hv Hdup. unfold validKeyLength in Hv. unfold Unseal.
  destruct (barrierKeyLength env) as [min max].
  apply andb_prop in Hv as [Hv1 Hv2]. apply Z.leb_le in Hv1, Hv2.
  replace (Z.of_nat (List.length key) <? min) with false by (symmetry; apply Z.ltb_ge; lia).
  replace (Z.of_nat (List.length key) >? max + ShareOverhead env) with false
    by (symmetry; rewrite Z.gtb_ltb; apply Z.ltb_ge; lia).
  rewrite (bind_pure _ _ _ _ (getSealConfig_pure env c)), Hcfg.
  autorewrite with monad. rewrite Hs, Hdup. reflexivity.
Qed.

Ltac key_checks Hv :=
  unfold validKeyLength in Hv;
  match goal with |- context [barrierKeyLength ?env] =>
    destruct (barrierKeyLength env) as [min max] end;
  apply andb_prop in Hv as [Hv1 Hv2]; apply Z.leb_le in Hv1, Hv2;
  match goal with |- context [Z.of_nat (List.length ?key) <? ?min] =>
    replace (Z.of_nat (List.length key) <? min) with false by (symmetry; apply Z.ltb_ge; lia)
  end;
  match goal with |- context [Z.of_nat (List.length ?key) >? ?max] =>
    replace (Z.of_nat (List.length key) >? max) with false
      by (symmetry; rewrite Z.gtb_ltb; apply Z.ltb_ge; lia)
  end.

Lemma Unseal_below_threshold (env : Env) (c : Core) (key : bytes) (config : SealConfig) :
  sealed c = true -> snd (getSealConfig env c) = Ok (Some config) ->
  Z.of_nat (List.length (unlockParts c)) + 1 < SecretThreshold config ->
  fst (snd (Unseal env key c)) = false /\ sealed (fst (fst (Unseal env key c))) = true.
Proof.
  intros Hs Hcfg Hlt. unfold Unseal.
  destruct (barrierKeyLength env) as [min max].
  destruct (Z.of_nat (List.length key) <? min); [split; [reflexivity | exact Hs] |].
  destruct (Z.of_nat (List.length key) >? max + ShareOverhead env);
    [split; [reflexivity | exact Hs] |].
  rewrite (bind_pure _ _ _ _ (getSealConfig_pure env c)), Hcfg.
  autorewrite with monad. rewrite Hs. simpl.
  destruct (existsb (fun existing => bytes_eqb existing key) (unlockParts c));
    [split; [reflexivity | exact Hs] |].
  autorewrite with monad. simpl.
  rewrite length_app. simpl.
  replace (Z.of_nat (List.length (unlockParts c) + 1) <? SecretThreshold config) with true
    by (symmetry; apply Z.ltb_lt; lia).
  split; [reflexivity | exact Hs].
Qed.

Ltac unseal_to_recovery Hs Hcfg Hv Hnd Hlen :=
  unfold Unseal; key_checks Hv;
  rewrite (bind_pure _ _ _ _ (getSealConfig_pure _ _)), Hcfg;
  autorewrite with monad; rewrite Hs; simpl; rewrite Hnd;
  autorewrite with monad; simpl; rewrite length_app; simpl;
  replace (Z.of_nat (List.length (unlockParts _) + 1) <? _) with false
    by (symmetry; apply Z.ltb_ge; lia).

Lemma bind_emit_proj {B} e (k : unit -> M B) c :
  bind (emit e) k c = (fst (fst (k tt c)), e :: snd (fst (k tt c)), snd (k tt c)).
Proof. unfold bind, emit. simpl. destruct (k tt c) as [[? ?] ?]. reflexivity. Qed.

Ltac trace_head := rewrite bind_emit_proj; simpl.

Lemma Unseal_threshold_trace (env : Env) (c : Core) (key : bytes) (config : SealConfig) :
  sealed c = true -> snd (getSealConfig env c) = Ok (Some config) ->
  validKeyLength env key = true ->
  existsb (fun existing => bytes_eqb existing key) (unlockParts c) = false ->
  Z.of_nat (List.length (unlockParts c)) + 1 = SecretThreshold config ->
  let parts := app (unlockParts c) [key] in
  let tr := snd (fst (Unseal env key c)) in
  (SecretThreshold config = 1 -> exists rest, tr = EvBarrierUnseal key :: rest) /\
  (SecretThreshold config <> 1 -> exists rest, tr = EvCombine parts :: rest) /\
  (SecretThreshold config <> 1 -> forall mk, shamirCombine env parts = Ok mk ->
     exists rest, tr = EvCombine parts :: EvBarrierUnseal mk :: rest).
Proof.
  intros Hs Hcfg Hv Hnd Hlen parts tr. subst parts tr.
  split; [| split]; intros Ht.
  - unseal_to_recovery Hs Hcfg Hv Hnd Hlen.
    rewrite Ht. simpl. autorewrite with monad.
    destruct (unlockParts c) eqn:Ep; [| simpl in Hlen; lia].
    simpl. trace_head. eexists; reflexivity.
  - unseal_to_recovery Hs Hcfg Hv Hnd Hlen.
    replace (SecretThreshold config =? 1) with false by (symmetry; apply Z.eqb_neq; exact Ht).
    autorewrite with monad. trace_head. eexists; reflexivity.
  - intros mk Hmk. unseal_to_recovery Hs Hcfg Hv Hnd Hlen.
    replace (SecretThreshold config =? 1) with false by (symmetry; apply Z.eqb_neq; exact Ht).
    autorewrite with monad. rewrite bind_emit_proj. simpl. autorewrite with monad.
    rewrite Hmk. autorewrite with monad. trace_head. eexists; reflexivity.
Qed.

Lemma Unseal_invalid_length (env : Env) (c : Core) (key : bytes) :
  validKeyLength env key = false ->
  exists reason, Unseal env key c = (c, [], (false, Some (ErrInvalidKey reason))).
Proof.
  unfold validKeyLength, Unseal. destruct (barrierKeyLength env) as [min max]. intros Hv.
  destruct (Z.of_nat (List.length key) <? min) eqn:E1; [eexists; reflexivity |].
  destruct (Z.of_nat (List.length key) >? max + ShareOverhead env) eqn:E2;
    [eexists; reflexivity |].
  apply Z.ltb_ge in E1. rewrite Z.gtb_ltb in E2. apply Z.ltb_ge in E2.
  apply andb_false_iff in Hv as [Hv | Hv]; apply Z.leb_gt in Hv; lia.
Qed.

Lemma Unseal_refused_result (env : Env) (c : Core) (key : bytes) (config : SealConfig) :
  sealed c = true -> snd (getSealConfig env c) = Ok (Some config) ->
  validKeyLength env key = true ->
  existsb (fun existing => bytes_eqb existing key) (unlockParts c) = false ->
  Z.of_nat (List.length (unlockParts c)) + 1 = SecretThreshold config ->
  (forall mk e, recoverMasterKey env config (app (unlockParts c) [key]) = Ok mk ->
     barrierUnseal env mk = Some e ->
     fst (fst (Unseal env key c)) = set_unlockParts c [] /\
     snd (Unseal env key c) = (false, Some e)) /\
  (forall e, recoverMasterKey env config (app (unlockParts c) [key]) = Err e ->
     fst (fst (Unseal env key c)) = set_unlockParts c [] /\
     snd (Unseal env key c) =
       (false, Some (ErrMsg (String.append "failed to compute master key: " (errorString e))))).
Proof.
  intros Hs Hcfg Hv Hnd Hlen.
  unseal_to_recovery Hs Hcfg Hv Hnd Hlen.
  unfold recoverMasterKey.
  destruct (SecretThreshold config =? 1).
  - split; [| intros e He; discriminate].
    intros mk e Hmk Hb. injection Hmk as <-.
    autorewrite with monad. simpl. rewrite bind_emit_proj. simpl.
    rewrite Hb. simpl. split; reflexivity.
  - split.
    + intros mk e Hmk Hb.
      autorewrite with monad. rewrite bind_emit_proj. simpl. autorewrite with monad.
      rewrite Hmk. autorewrite with monad. simpl. rewrite bind_emit_proj. simpl.
      rewrite Hb. simpl. split; reflexivity.
    + intros e He.
      autorewrite with monad. rewrite bind_emit_proj. simpl. autorewrite with monad.
      rewrite He. autorewrite with monad. simpl. split; reflexivity.
Qed.

(** C7: on a sealed, initialized core, (1) resubmitting an accepted key
    share changes nothing and returns false; (2) while fewer than threshold
    [T] parts are held, Unseal returns false and the core stays sealed; (3)
    the submission that brings the count to [T] takes the lone part when
    [T = 1] and hands it to barrier.Unseal, and otherwise calls Combine on
    the parts and hands the combined key to barrier.Unseal. *)
Theorem Unseal_accumulates (env : Env) (c : Core) (key : bytes) (config : SealConfig) :
  sealed c = true -> snd (getSealConfig env c) = Ok (Some config) ->
  (validKeyLength env key = true ->
   existsb (fun existing => bytes_eqb existing key) (unlockParts c) = true ->
   Unseal env key c = (c, [], (false, None))) /\
  (Z.of_nat (List.length (unlockParts c)) + 1 < SecretThreshold config ->
   fst (snd (Unseal env key c)) = false /\ sealed (fst (fst (Unseal env key c))) = true) /\
  (validKeyLength env key = true ->
   existsb (fun existing => bytes_eqb existing key) (unlockParts c) = false ->
   Z.of_nat (List.length (unlockParts c)) + 1 = SecretThreshold config ->
   let parts := app (unlockParts c) [key] in
   let tr := snd (fst (Unseal env key c)) in
   (SecretThreshold config = 1 -> exists rest, tr = EvBarrierUnseal key :: rest) /\
   (SecretThreshold config <> 1 -> exists rest, tr = EvCombine parts :: rest) /\
   (SecretThreshold config <> 1 -> forall mk, shamirCombine env parts = Ok mk ->
      exists rest, tr = EvCombine parts :: EvBarrierUnseal mk :: rest)).
Proof.
  intros Hs Hcfg. split; [| split].
  - intros Hv Hdup. exact (Unseal_duplicate env c key config Hs Hcfg Hv Hdup).
  - intros Hlt. exact (Unseal_below_threshold env c key config Hs Hcfg Hlt).
  - intros Hv Hnd Hlen. exact (Unseal_threshold_trace env c key config Hs Hcfg Hv Hnd Hlen).
Qed.

Lemma Unseal_accumulates_witness :
  let e := testEnv (mkSealConfig 3 2) (app keyA keyB) allSteps noToken noRoute in
  Unseal e keyA (sealedCore false [keyA]) = (sealedCore false [keyA], [], (false, None)).
Proof.
  intros e.
  apply (proj1 (Unseal_accumulates e (sealedCore false [keyA]) keyA (mkSealConfig 3 2)
                  eq_refl eq_refl)); vm_compute; reflexivity.
Defined.

(** C3 (as stated): after [T-1] correct shares a wrong key leaves the
    accepted parts unchanged.  With threshold 2 and [keyA] accepted, the
    wrong key [keyWrong] (of valid length) is refused by the barrier, but the
    accepted parts are cleared: SecretProgress drops from 1 to 0. *)
Lemma Unseal_wrong_key_resets_progress :
  let e := testEnv (mkSealConfig 3 2) (app keyA keyB) allSteps noToken noRoute in
  let u := Unseal e keyWrong (sealedCore false [keyA]) in
  snd u = (false, Some (ErrInvalidKey "message authentication failed")) /\
  snd (SecretProgress (sealedCore false [keyA])) = 1 /\
  snd (SecretProgress (fst (fst u))) = 0 /\
  unlockParts (fst (fst u)) <> unlockParts (sealedCore false [keyA]).
Proof. vm_compute. repeat split; discriminate. Qed.

(** C3 (amended): on a sealed, initialized core holding [T-1] accepted
    parts, a key of invalid length fails with [ErrInvalidKey] and changes
    nothing; a new key of valid length completes the count and the parts
    are combined: when the barrier refuses the recovered master key, Unseal
    returns false with the barrier's error, and when combining fails it
    returns false with "failed to compute master key: " and the combine
    error; in both cases the core stays sealed and, the accepted parts
    having been cleared, SecretProgress is 0. *)
Theorem Unseal_wrong_key_clears_parts (env : Env) (c : Core) (key : bytes) (config : SealConfig) :
  sealed c = true -> snd (getSealConfig env c) = Ok (Some config) ->
  Z.of_nat (List.length (unlockParts c)) + 1 = SecretThreshold config ->
  (validKeyLength env key = false ->
   exists reason, Unseal env key c = (c, [], (false, Some (ErrInvalidKey reason)))) /\
  (validKeyLength env key = true ->
   existsb (fun existing => bytes_eqb existing key) (unlockParts c) = false ->
   let u := Unseal env key c in
   (forall mk e, recoverMasterKey env config (app (unlockParts c) [key]) = Ok mk ->
      barrierUnseal env mk = Some e ->
      snd u = (false, Some e) /\
      sealed (fst (fst u)) = true /\ snd (SecretProgress (fst (fst u))) = 0) /\
   (forall e, recoverMasterKey env config (app (unlockParts c) [key]) = Err e ->
      snd u = (false, Some (ErrMsg (String.append "failed to compute master key: " (errorString e)))) /\
      sealed (fst (fst u)) = true /\ snd (SecretProgress (fst (fst u))) = 0)).
Proof.
  intros Hs Hcfg Hlen. split.
  - intros Hv. apply Unseal_invalid_length. exact Hv.
  - intros Hv Hnd u. subst u.
    destruct (Unseal_refused_result env c key config Hs Hcfg Hv Hnd Hlen) as [Hb Hc].
    split.
    + intros mk e Hmk Hbe. destruct (Hb mk e Hmk Hbe) as [H1 H2].
      rewrite H1, H2. repeat split; assumption.
    + intros e He. destruct (Hc e He) as [H1 H2].
      rewrite H1, H2. repeat split; assumption.
Qed.

Lemma Unseal_wrong_key_clears_parts_witness :
  let e := testEnv (mkSealConfig 3 2) (app keyA keyB) allSteps noToken noRoute in
  let u := Unseal e keyWrong (sealedCore false [keyA]) in
  snd u = (false, Some (ErrInvalidKey "message authentication failed")) /\
  sealed (fst (fst u)) = true /\ snd (SecretProgress (fst (fst u))) = 0.
Proof.
  intros e.
  destruct (Unseal_wrong_key_clears_parts e (sealedCore false [keyA]) keyWrong
              (mkSealConfig 3 2) eq_refl eq_refl eq_refl) as [_ Hvalid].
  apply (proj1 (Hvalid eq_refl eq_refl) (app keyA keyWrong));
    vm_compute; reflexivity.
Defined.

(** ** Lemmas on the request pipeline *)

Lemma bind_step {A B} (m : M A) (k : A -> M B) c c1 t1 a :
  m c = (c1, t1, a) ->
  bind m k c = (fst (fst (k a c1)), app t1 (snd (fst (k a c1))), snd (k a c1)).
Proof. intros H. unfold bind. rewrite H. destruct (k a c1) as [[? ?] ?]. reflexivity. Qed.

Lemma checkToken_state (env : Env) op path token c :
  checkToken env op path token c =
  (c, snd (fst (checkToken env op path token c)), snd (checkToken env op path token c)).
Proof.
  unfold checkToken, bind, emit, ret.
  destruct (String.eqb token ""); [reflexivity |]. simpl.
  destruct (tokenLookup env token) as [[te|]|e]; simpl; try reflexivity.
  destruct (useToken env te); simpl; try reflexivity.
  destruct (policyACL env (TokenEntry.Policies te)) as [acl|e]; simpl; try reflexivity.
  destruct (routerRootPath env path && negb (RootPrivilege acl path)); simpl; try reflexivity.
  destruct (negb (AllowOperation acl op path)); reflexivity.
Qed.

Lemma handleSecret_some (env : Env) q r s c :
  Response.Secret r = Some s ->
  let s1 := set_secret_lease s (secretLease env (Secret.Lease s)) in
  handleSecret env q (Some r) c =
  (c, [EvRegister q (with_secret r s1)],
   match expirationRegister env q (with_secret r s1) with
   | Err _ => Err ErrInternalError
   | Ok leaseID => Ok (Some (with_secret (with_secret r s1) (set_secret_leaseid s1 leaseID)))
   end).
Proof.
  intros Hs s1. unfold handleSecret. rewrite Hs. subst s1.
  unfold bind, emit, ret. simpl.
  destruct (expirationRegister env q _); reflexivity.
Qed.

Lemma handleAuth_keeps_secret (env : Env) q x c :
  fst (fst (handleAuth env q (Some x) c)) = c /\
  match snd (handleAuth env q (Some x) c) with
  | Ok (Some y) => Response.Secret y = Response.Secret x
  | Ok None => False
  | Err _ => True
  end.
Proof.
  unfold handleAuth. destruct (Response.Auth x) as [a|]; [| split; reflexivity].
  destruct (negb (HasPrefix (Request.Path q) "auth/token/")); [split; simpl; auto |].
  unfold bind, emit, ret. simpl.
  destruct (expirationRegisterAuth env _ _); simpl; split; auto.
Qed.

Lemma auditResponse_result (env : Env) auth q resp err c :
  auditResponse env auth q resp err c =
  (c, [EvLogResponse auth q resp],
   match logResponse env auth q resp err with
   | Some _ => (None, Some ErrInternalError)
   | None => (resp, err)
   end).
Proof.
  unfold auditResponse, bind, emit, ret. simpl.
  destruct (logResponse env auth q resp err); reflexivity.
Qed.

Lemma secretLease_spec (env : Env) (l : Z) :
  0 <= defaultLeaseDuration env <= maxLeaseDuration env ->
  (l = 0 -> secretLease env l = defaultLeaseDuration env) /\
  (l > maxLeaseDuration env -> secretLease env l = maxLeaseDuration env) /\
  (l <> 0 -> l <= maxLeaseDuration env -> secretLease env l = l).
Proof.
  intros Hdm. unfold secretLease.
  split; [| split]; intros.
  - subst l. simpl. destruct (defaultLeaseDuration env >? maxLeaseDuration env) eqn:E;
      [rewrite Z.gtb_ltb in E; apply Z.ltb_lt in E; lia | reflexivity].
  - destruct (l =? 0) eqn:E0; [apply Z.eqb_eq in E0; lia |].
    destruct (l >? maxLeaseDuration env) eqn:E; [reflexivity |].
    rewrite Z.gtb_ltb in E; apply Z.ltb_ge in E; lia.
  - destruct (l =? 0) eqn:E0; [apply Z.eqb_eq in E0; lia |].
    destruct (l >? maxLeaseDuration env) eqn:E; [| reflexivity].
    rewrite Z.gtb_ltb in E; apply Z.ltb_lt in E; lia.
Qed.

Lemma handleRequest_secret_path (env : Env) c r auth resp err s :
  sealed c = false -> standby c = false ->
  routerLoginPath env (Request.Path r) = false ->
  snd (checkToken env (Request.Operation r) (Request.Path r) (Request.ClientToken r) c) = Ok auth ->
  let r' := set_req_display_name r (Auth.DisplayName auth) in
  logRequest env (Some auth) r' = None ->
  routerRoute env r' = (Some resp, err) ->
  Response.Secret resp = Some s ->
  let s1 := set_secret_lease s (secretLease env (Secret.Lease s)) in
  let u := HandleRequest env r c in
  In (EvRegister r' (with_secret resp s1)) (snd (fst u)) /\
  (forall out, fst (snd u) = Some out ->
     exists leaseID, expirationRegister env r' (with_secret resp s1) = Ok leaseID /\
                     Response.Secret out = Some (set_secret_leaseid s1 leaseID)).
Proof.
  intros Hs Hsb Hl Hct r' Hlog Hroute Hsec s1 u.
  subst u r' s1.
  unfold HandleRequest. autorewrite with monad. rewrite Hs, Hsb, Hl.
  unfold handleRequest.
  rewrite (bind_step _ _ _ _ _ _ (checkToken_state _ _ _ _ _)), Hct.
  cbv beta iota zeta. rewrite bind_emit_proj, Hlog.
  cbv beta iota zeta. rewrite bind_emit_proj, Hroute.
  cbv beta iota zeta. rewrite (bind_step _ _ _ _ _ _ (handleSecret_some env _ _ _ _ Hsec)).
  destruct (expirationRegister env _ _) as [leaseID | e] eqn:Ereg.
  - cbv beta iota.
    match goal with |- context [handleAuth env ?q (Some ?y)] =>
      pose proof (handleAuth_keeps_secret env q y c) as [Hc Hk];
      destruct (handleAuth env q (Some y) c) as [[ca ta] ra] eqn:Eh
    end.
    simpl in Hc. subst ca.
    rewrite (bind_step _ _ _ _ _ _ Eh).
    destruct ra as [[y'|] | e]; [| contradiction |].
    + rewrite auditResponse_result. simpl.
      split.
      * apply in_or_app. right. simpl. auto.
      * intros out Hout. exists leaseID. split; [reflexivity |].
        destruct (logResponse env _ _ _ _); simpl in Hout; [discriminate |].
        injection Hout as <-. rewrite Hk. reflexivity.
    + simpl. split.
      * apply in_or_app. right. simpl. auto.
      * intros out Hout. discriminate.
  - simpl. split.
    + apply in_or_app. right. simpl. auto.
    + intros out Hout. discriminate.
Qed.

Lemma handleSecret_passes (env : Env) q r c :
  match Response.Secret r with
  | None => True
  | Some s => exists id, expirationRegister env q
                (with_secret r (set_secret_lease s (secretLease env (Secret.Lease s)))) = Ok id
  end ->
  exists t y, handleSecret env q (Some r) c = (c, t, Ok (Some y)) /\
              Response.Auth y = Response.Auth r.
Proof.
  destruct (Response.Secret r) as [s|] eqn:Es; intros H.
  - destruct H as [id Hid]. rewrite (handleSecret_some env q r s c Es), Hid.
    do 2 eexists. split; reflexivity.
  - unfold handleSecret. rewrite Es. do 2 eexists. split; reflexivity.
Qed.

Lemma handleAuth_some (env : Env) q y a c :
  Response.Auth y = Some a ->
  HasPrefix (Request.Path q) "auth/token/" = true ->
  let a1 := set_auth_lease a (authLease env a) in
  handleAuth env q (Some y) c =
  (c, [EvRegisterAuth (Request.Path q) a1],
   match expirationRegisterAuth env (Request.Path q) a1 with
   | Some _ => Err ErrInternalError
   | None => Ok (Some (with_auth y a1))
   end).
Proof.
  intros Ha Hp a1. unfold handleAuth. rewrite Ha, Hp. subst a1.
  unfold bind, emit, ret. simpl.
  destruct (expirationRegisterAuth env _ _); reflexivity.
Qed.

Lemma handleRequest_auth_path (env : Env) c r auth resp err a :
  sealed c = false -> standby c = false ->
  routerLoginPath env (Request.Path r) = false ->
  snd (checkToken env (Request.Operation r) (Request.Path r) (Request.ClientToken r) c) = Ok auth ->
  let r' := set_req_display_name r (Auth.DisplayName auth) in
  logRequest env (Some auth) r' = None ->
  routerRoute env r' = (Some resp, err) ->
  match Response.Secret resp with
  | None => True
  | Some s => exists id, expirationRegister env r'
                (with_secret resp (set_secret_lease s (secretLease env (Secret.Lease s)))) = Ok id
  end ->
  Response.Auth resp = Some a ->
  HasPrefix (Request.Path r) "auth/token/" = true ->
  In (EvRegisterAuth (Request.Path r) (set_auth_lease a (authLease env a)))
     (snd (fst (HandleRequest env r c))).
Proof.
  intros Hs Hsb Hl Hct r' Hlog Hroute Hsec Ha Hp. subst r'.
  unfold HandleRequest. autorewrite with monad. rewrite Hs, Hsb, Hl.
  unfold handleRequest.
  rewrite (bind_step _ _ _ _ _ _ (checkToken_state _ _ _ _ _)), Hct.
  cbv beta iota zeta. rewrite bind_emit_proj, Hlog.
  cbv beta iota zeta. rewrite bind_emit_proj, Hroute.
  cbv beta iota zeta.
  destruct (handleSecret_passes env _ resp c Hsec) as (t & y & Ehs & Hay).
  rewrite (bind_step _ _ _ _ _ _ Ehs). cbv beta iota.
  rewrite Ha in Hay.
  rewrite (bind_step _ _ _ _ _ _
    (handleAuth_some env (set_req_display_name r (Auth.DisplayName auth)) y a c Hay Hp)).
  simpl. apply in_or_app. right. right. right.
  apply in_or_app. right. left. reflexivity.
Qed.

Lemma handleRequest_secret_fails (env : Env) c r auth resp err s e :
  sealed c = false -> standby c = false ->
  routerLoginPath env (Request.Path r) = false ->
  snd (checkToken env (Request.Operation r) (Request.Path r) (Request.ClientToken r) c) = Ok auth ->
  let r' := set_req_display_name r (Auth.DisplayName auth) in
  logRequest env (Some auth) r' = None ->
  routerRoute env r' = (Some resp, err) ->
  Response.Secret resp = Some s ->
  let s1 := set_secret_lease s (secretLease env (Secret.Lease s)) in
  expirationRegister env r' (with_secret resp s1) = Err e ->
  HandleRequest env r c =
    (c, snd (fst (checkToken env (Request.Operation r) (Request.Path r) (Request.ClientToken r) c))
          ++ [EvLogRequest (Some auth) r'; EvRoute r'; EvRegister r' (with_secret resp s1)],
     (None, Some ErrInternalError)).
Proof.
  intros Hs Hsb Hl Hct r' Hlog Hroute Hsec s1 Hreg. subst r' s1.
  unfold HandleRequest. autorewrite with monad. rewrite Hs, Hsb, Hl.
  unfold handleRequest.
  rewrite (bind_step _ _ _ _ _ _ (checkToken_state _ _ _ _ _)), Hct.
  cbv beta iota zeta. rewrite bind_emit_proj, Hlog.
  cbv beta iota zeta. rewrite bind_emit_proj, Hroute.
  cbv beta iota zeta.
  rewrite (bind_step _ _ _ _ _ _ (handleSecret_some env _ resp s c Hsec)).
  cbv zeta. rewrite Hreg. reflexivity.
Qed.

Lemma authLease_in_range (env : Env) (a : Auth.t) :
  0 < Auth.Lease a <= maxLeaseDuration env -> authLease env a = Auth.Lease a.
Proof.
  intros H. unfold authLease.
  destruct (Auth.Lease a =? 0) eqn:E0; [apply Z.eqb_eq in E0; lia |]. simpl.
  destruct (Auth.Lease a >? maxLeaseDuration env) eqn:E; [| reflexivity].
  rewrite Z.gtb_ltb in E; apply Z.ltb_lt in E; lia.
Qed.

Lemma authLease_spec (env : Env) (a : Auth.t) :
  0 <= defaultLeaseDuration env <= maxLeaseDuration env ->
  (strListContains (Auth.Policies a) "root" = true -> Auth.Lease a = 0 -> authLease env a = 0) /\
  (strListContains (Auth.Policies a) "root" = false -> Auth.Lease a = 0 ->
     authLease env a = defaultLeaseDuration env) /\
  (Auth.Lease a > maxLeaseDuration env -> authLease env a = maxLeaseDuration env).
Proof.
  intros Hdm. unfold authLease.
  split; [| split]; intros.
  - rewrite H, H0. simpl.
    destruct (0 >? maxLeaseDuration env) eqn:E; [| reflexivity].
    rewrite Z.gtb_ltb in E; apply Z.ltb_lt in E; lia.
  - rewrite H, H0. simpl.
    destruct (defaultLeaseDuration env >? maxLeaseDuration env) eqn:E; [| reflexivity].
    rewrite Z.gtb_ltb in E; apply Z.ltb_lt in E; lia.
  - destruct (Auth.Lease a =? 0) eqn:E0; [apply Z.eqb_eq in E0; lia |]. simpl.
    destruct (Auth.Lease a >? maxLeaseDuration env) eqn:E; [reflexivity |].
    rewrite Z.gtb_ltb in E; apply Z.ltb_ge in E; lia.
Qed.

(** ** C6: leases of secrets *)

(** C6: on the authenticated path, when the routed response carries a
    secret, the Core registers it with the expiration manager under lease
    [L], where a zero lease becomes [defaultLeaseDuration], a lease above
    [maxLeaseDuration] becomes [maxLeaseDuration] and any other lease is
    kept; a response returned to the caller carries lease [L] and the lease
    id the expiration manager assigned.  (The package's constants satisfy
    [0 <= defaultLeaseDuration <= maxLeaseDuration].) *)
Theorem handleRequest_secret_lease (env : Env) c r auth resp err s :
  sealed c = false -> standby c = false ->
  routerLoginPath env (Request.Path r) = false ->
  snd (checkToken env (Request.Operation r) (Request.Path r) (Request.ClientToken r) c) = Ok auth ->
  let r' := set_req_display_name r (Auth.DisplayName auth) in
  logRequest env (Some auth) r' = None ->
  routerRoute env r' = (Some resp, err) ->
  Response.Secret resp = Some s ->
  0 <= defaultLeaseDuration env <= maxLeaseDuration env ->
  let u := HandleRequest env r c in
  exists L,
    (Secret.Lease s = 0 -> L = defaultLeaseDuration env) /\
    (Secret.Lease s > maxLeaseDuration env -> L = maxLeaseDuration env) /\
    (Secret.Lease s <> 0 -> Secret.Lease s <= maxLeaseDuration env -> L = Secret.Lease s) /\
    In (EvRegister r' (with_secret resp (set_secret_lease s L))) (snd (fst u)) /\
    (forall out, fst (snd u) = Some out ->
       exists leaseID,
         expirationRegister env r' (with_secret resp (set_secret_lease s L)) = Ok leaseID /\
         Response.Secret out = Some (Secret.mk L leaseID)).
Proof.
  intros Hs Hsb Hl Hct r' Hlog Hroute Hsec Hdm u.
  destruct (secretLease_spec env (Secret.Lease s) Hdm) as (H0 & Hmax & Hin).
  destruct (handleRequest_secret_path env c r auth resp err s Hs Hsb Hl Hct Hlog Hroute Hsec)
    as [Hreg Hout].
  exists (secretLease env (Secret.Lease s)).
  split; [exact H0 |]. split; [exact Hmax |]. split; [exact Hin |].
  split; [exact Hreg |].
  intros out Hu. destruct (Hout out Hu) as (leaseID & E1 & E2).
  exists leaseID. split; [exact E1 | exact E2].
Qed.

(** ** C5: auth blocks on the authenticated path *)

(** C5 (as stated): a root policy holder's auth gets no lease registration.
    A request to auth/token/create whose response carries an auth block
    with policy root does reach the expiration manager. *)
Lemma handleRequest_root_auth_registered :
  In (EvRegisterAuth "auth/token/create" rootChildAuth)
     (snd (fst (HandleRequest rootEnv (Request.mk WriteOperation "auth/token/create" "root-token" "")
                              (unsealedCore false false)))).
Proof. vm_compute. repeat (first [left; reflexivity | right]). Qed.

(** C5 (amended): on the authenticated path, when the routed response
    carries an auth block and the path is under auth/token/, the Core
    registers the auth with the expiration manager whatever its policies,
    root included, under lease [L]: a zero lease becomes 0 for a root
    policy holder and [defaultLeaseDuration] otherwise, a lease above
    [maxLeaseDuration] becomes [maxLeaseDuration], and any other lease is
    kept, root or not.  This holds when the response carries no secret or
    its secret registers; when the secret's registration fails,
    handleRequest returns [ErrInternalError] before the auth block. *)
Theorem handleRequest_registers_auth (env : Env) c r auth resp err a :
  sealed c = false -> standby c = false ->
  routerLoginPath env (Request.Path r) = false ->
  snd (checkToken env (Request.Operation r) (Request.Path r) (Request.ClientToken r) c) = Ok auth ->
  let r' := set_req_display_name r (Auth.DisplayName auth) in
  logRequest env (Some auth) r' = None ->
  routerRoute env r' = (Some resp, err) ->
  Response.Auth resp = Some a ->
  HasPrefix (Request.Path r) "auth/token/" = true ->
  0 <= defaultLeaseDuration env <= maxLeaseDuration env ->
  (match Response.Secret resp with
   | None => True
   | Some s => exists id, expirationRegister env r'
                 (with_secret resp (set_secret_lease s (secretLease env (Secret.Lease s)))) = Ok id
   end ->
   exists L,
     (strListContains (Auth.Policies a) "root" = true -> Auth.Lease a = 0 -> L = 0) /\
     (strListContains (Auth.Policies a) "root" = false -> Auth.Lease a = 0 ->
        L = defaultLeaseDuration env) /\
     (Auth.Lease a > maxLeaseDuration env -> L = maxLeaseDuration env) /\
     (0 < Auth.Lease a <= maxLeaseDuration env -> L = Auth.Lease a) /\
     In (EvRegisterAuth (Request.Path r) (set_auth_lease a L))
        (snd (fst (HandleRequest env r c)))) /\
  (forall s e, Response.Secret resp = Some s ->
     let s1 := set_secret_lease s (secretLease env (Secret.Lease s)) in
     expirationRegister env r' (with_secret resp s1) = Err e ->
     HandleRequest env r c =
       (c, snd (fst (checkToken env (Request.Operation r) (Request.Path r) (Request.ClientToken r) c))
             ++ [EvLogRequest (Some auth) r'; EvRoute r'; EvRegister r' (with_secret resp s1)],
        (None, Some ErrInternalError))).
Proof.
  intros Hs Hsb Hl Hct r' Hlog Hroute Ha Hp Hdm. split.
  - intros Hsec. exists (authLease env a).
    destruct (authLease_spec env a Hdm) as (H1 & H2 & H3).
    split; [exact H1 |]. split; [exact H2 |]. split; [exact H3 |].
    split; [exact (authLease_in_range env a) |].
    exact (handleRequest_auth_path env c r auth resp err a Hs Hsb Hl Hct Hlog Hroute Hsec Ha Hp).
  - intros s e Hsec s1 Hreg.
    exact (handleRequest_secret_fails env c r auth resp err s e Hs Hsb Hl Hct Hlog Hroute Hsec Hreg).
Qed.

Lemma handleRequest_registers_auth_witness :
  exists L, L = 0 /\
  In (EvRegisterAuth "auth/token/create" (set_auth_lease rootChildAuth L))
     (snd (fst (HandleRequest rootEnv (Request.mk WriteOperation "auth/token/create" "root-token" "")
                              (unsealedCore false false)))).
Proof.
  destruct (handleRequest_registers_auth rootEnv (unsealedCore false false)
              (Request.mk WriteOperation "auth/token/create" "root-token" "")
              rootTokenAuth (Response.mk None (Some rootChildAuth) []) None rootChildAuth)
    as [Hok _];
    try (vm_compute; reflexivity); try (vm_compute; split; discriminate).
  destruct (Hok I) as (L & Hroot & _ & _ & _ & Hin).
  exists L. split; [apply Hroot; reflexivity | exact Hin].
Defined.

Lemma handleRequest_secret_lease_witness :
  exists L, L = 2592000 /\
  In (EvRegister (Request.mk ReadOperation "secret/foo" "root-token" "root")
                 (with_secret secretResponse (set_secret_lease (Secret.mk 0 "") L)))
     (snd (fst (HandleRequest secretEnv (req "secret/foo" "root-token")
                              (unsealedCore false false)))).
Proof.
  destruct (handleRequest_secret_lease secretEnv (unsealedCore false false)
              (req "secret/foo" "root-token") rootTokenAuth secretResponse None (Secret.mk 0 ""))
    as (L & H0 & _ & _ & Hin & _);
    try (vm_compute; reflexivity); try (vm_compute; split; discriminate).
  exists L. split; [apply H0; reflexivity | exact Hin].
Defined.

(** * Further properties of the Core *)

(** ** Frames of postUnseal and preSeal *)

Lemma set_metricsRunning_same (c : Core) : set_metricsRunning c (metricsRunning c) = c.
Proof. destruct c; reflexivity. Qed.

Ltac step_all env :=
  repeat match goal with
  | |- context [postUnsealStep env ?s] => destruct (postUnsealStep env s)
  | |- context [preSealStep env ?s] => destruct (preSealStep env s)
  end.

Lemma postUnseal_frame (env : Env) (c : Core) :
  fst (fst (postUnseal env c)) = set_metricsRunning c (metricsRunning (fst (fst (postUnseal env c)))).
Proof.
  unfold postUnseal, runPostUnsealStep, purgeCache, bind, emit, get, put, ret. cbn.
  destruct (physicalIsCache c); cbn; step_all env; cbn;
  rewrite ?set_metricsRunning_same; reflexivity.
Qed.

Lemma postUnseal_result_indep (env : Env) (c c' : Core) :
  snd (postUnseal env c) = snd (postUnseal env c').
Proof.
  unfold postUnseal, runPostUnsealStep, purgeCache, bind, emit, get, put, ret. cbn.
  destruct (physicalIsCache c), (physicalIsCache c'); cbn; step_all env; reflexivity.
Qed.

Lemma runPreSealSteps_pure (env : Env) (l : list PreSealStep) (c : Core) :
  fst (fst (runPreSealSteps env l c)) = c.
Proof.
  revert c. induction l as [| s l IH]; intros c; [reflexivity |].
  simpl. unfold bind, emit, ret. cbn.
  destruct (preSealStep env s); cbn; [reflexivity |].
  specialize (IH c). destruct (runPreSealSteps env l c) as [[c' t'] r']. exact IH.
Qed.

Lemma runPreSealSteps_result_indep (env : Env) (l : list PreSealStep) (c c' : Core) :
  snd (runPreSealSteps env l c) = snd (runPreSealSteps env l c').
Proof.
  revert c c'. induction l as [| s l IH]; intros c c'; [reflexivity |].
  simpl. unfold bind, emit, ret. cbn.
  destruct (preSealStep env s); cbn; [reflexivity |].
  specialize (IH c c').
  destruct (runPreSealSteps env l c) as [[c1 t1] r1].
  destruct (runPreSealSteps env l c') as [[c2 t2] r2]. exact IH.
Qed.

Lemma preSeal_frame (env : Env) (c : Core) :
  fst (fst (preSeal env c)) = set_metricsRunning c false.
Proof.
  unfold preSeal, purgeCache, bind, emit, get, put, ret. cbn -[runPreSealSteps].
  destruct (metricsRunning c) eqn:Em; cbn -[runPreSealSteps];
  match goal with |- context [runPreSealSteps env ?l ?c'] =>
    pose proof (runPreSealSteps_pure env l c') as Hp;
    destruct (runPreSealSteps env l c') as [[c1 t1] [r1|]] end;
  simpl in Hp; subst c1; cbn; try reflexivity.
  all: try (destruct (physicalIsCache _)); cbn; try reflexivity.
  all: destruct c; simpl in *; subst; reflexivity.
Qed.

Lemma preSeal_result (env : Env) (c : Core) :
  snd (preSeal env c) =
  snd (runPreSealSteps env [TeardownAudits; StopExpiration; TeardownCredentials;
                            TeardownPolicyStore; StopRollback; UnloadMounts] c).
Proof.
  unfold preSeal, purgeCache, bind, emit, get, put, ret. cbn -[runPreSealSteps].
  destruct (metricsRunning c); cbn -[runPreSealSteps];
  match goal with |- context [runPreSealSteps env ?l ?a] =>
    try rewrite (runPreSealSteps_result_indep env l c a);
    destruct (runPreSealSteps env l a) as [[c1 t1] [r1|]] end;
  cbn; try reflexivity; destruct (physicalIsCache c1); reflexivity.
Qed.

Lemma preSeal_result_indep (env : Env) (c c' : Core) :
  snd (preSeal env c) = snd (preSeal env c').
Proof. rewrite !preSeal_result. apply runPreSealSteps_result_indep. Qed.

Lemma checkToken_no_preSeal (env : Env) op path token c :
  countPreSeal (snd (fst (checkToken env op path token c))) = 0%nat.
Proof.
  unfold checkToken, bind, emit, ret.
  destruct (String.eqb token ""); [reflexivity |]. simpl.
  destruct (tokenLookup env token) as [[te|]|e]; simpl; try reflexivity.
  destruct (useToken env te); simpl; try reflexivity.
  destruct (policyACL env (TokenEntry.Policies te)) as [acl|e]; simpl; try reflexivity.
  destruct (routerRootPath env path && negb (RootPrivilege acl path)); simpl; try reflexivity.
  destruct (negb (AllowOperation acl op path)); reflexivity.
Qed.

Lemma checkToken_no_barrierSeal (env : Env) op path token c :
  ~ In EvBarrierSeal (snd (fst (checkToken env op path token c))).
Proof.
  unfold checkToken, bind, emit, ret.
  destruct (String.eqb token ""); [simpl; tauto |]. simpl.
  destruct (tokenLookup env token) as [[te|]|e]; simpl; try (intuition discriminate).
  destruct (useToken env te); simpl; try (intuition discriminate).
  destruct (policyACL env (TokenEntry.Policies te)) as [acl|e]; simpl; try (intuition discriminate).
  destruct (routerRootPath env path && negb (RootPrivilege acl path)); simpl;
    try (intuition discriminate).
  destruct (negb (AllowOperation acl op path)); simpl; intuition discriminate.
Qed.

Lemma runPreSealSteps_events (env : Env) (l : list PreSealStep) (c : Core) e :
  In e (snd (fst (runPreSealSteps env l c))) -> exists s, e = EvPreSealStep s.
Proof.
  revert c. induction l as [| s l IH]; intros c; [simpl; tauto |].
  simpl. unfold bind, emit, ret. cbn.
  destruct (preSealStep env s); cbn.
  - intros [H | []]. eauto.
  - specialize (IH c). destruct (runPreSealSteps env l c) as [[c' t'] r'].
    simpl in IH |- *. intros [H | H]; eauto.
Qed.

Lemma preSeal_no_barrierSeal (env : Env) (c : Core) :
  ~ In EvBarrierSeal (snd (fst (preSeal env c))).
Proof.
  unfold preSeal, purgeCache, bind, emit, get, put, ret. cbn -[runPreSealSteps].
  destruct (metricsRunning c); cbn -[runPreSealSteps];
  match goal with |- context [runPreSealSteps env ?l ?a] =>
    pose proof (runPreSealSteps_events env l a EvBarrierSeal) as He;
    destruct (runPreSealSteps env l a) as [[c1 t1] [r1|]] end;
  simpl in He; cbn; try (destruct (physicalIsCache c1)); cbn;
  rewrite ?app_nil_r; intros H;
  repeat (destruct H as [H | H]; [discriminate |]);
  repeat (apply in_app_or in H as [H | H]);
  try (destruct (He H) as [? ?]; discriminate);
  simpl in H; intuition discriminate.
Qed.

(** ** The request pipeline *)

Ltac unfold_pipeline :=
  cbv beta iota zeta delta [HandleRequest handleRequest handleLoginRequest checkToken
    handleSecret handleAuth auditResponse bind ret emit get put].

Ltac split_matches :=
  repeat (match goal with
  | |- context [match ?x with _ => _ end] =>
      lazymatch x with context [match _ with _ => _ end] => fail | _ => idtac end;
      destruct x eqn:?; cbv beta iota zeta
  end).

Lemma split_cons {A} (x : A) (l mid : list A) (Q : Prop) :
  (exists pre post, l = pre ++ mid ++ post /\ Q) ->
  exists pre post, x :: l = pre ++ mid ++ post /\ Q.
Proof. intros (pre & post & -> & HQ). exists (x :: pre), post. split; [reflexivity | exact HQ]. Qed.

Ltac find_split :=
  first [ exists []; eexists; split; [reflexivity | eassumption]
        | eexists; eexists; split; [reflexivity | eassumption]
        | apply (split_cons _ _ [_; _]); find_split ].

(** Every request HandleRequest hands to the router has been logged by the audit broker just before, and that log call succeeded. *)
Theorem HandleRequest_routes_only_audited (env : Env) (r : Request.t) (c : Core) (q : Request.t) :
  In (EvRoute q) (snd (fst (HandleRequest env r c))) ->
  exists a pre post,
    snd (fst (HandleRequest env r c)) = pre ++ EvLogRequest a q :: EvRoute q :: post /\
    logRequest env a q = None.
Proof.
  unfold_pipeline. split_matches.
  all: simpl fst; simpl snd; intros H.
  all: simpl app in H; simpl In in H.
  all: repeat (destruct H as [H | H]); try discriminate; try contradiction.
  all: injection H as <-; simpl app; eexists.
  all: find_split.
Qed.

(** HandleRequest registers an auth with the expiration manager only for the request's own path, and only when that path is under auth/token/ or is a login path. *)
Theorem HandleRequest_auth_registered_paths (env : Env) (r : Request.t) (c : Core) p a :
  In (EvRegisterAuth p a) (snd (fst (HandleRequest env r c))) ->
  p = Request.Path r /\
  (HasPrefix p "auth/token/" = true \/ routerLoginPath env p = true).
Proof.
  unfold_pipeline. split_matches.
  all: simpl fst; simpl snd; intros H.
  all: simpl app in H; simpl In in H.
  all: repeat (destruct H as [H | H]); try discriminate; try contradiction.
  all: injection H as <- <-; split; [reflexivity |].
  all: first [right; assumption | left; apply negb_false_iff; assumption].
Qed.

(** A response HandleRequest returns has been logged successfully by the audit broker, unless it is the error response of a refused token on the authenticated path. *)
Theorem HandleRequest_response_audited (env : Env) (r : Request.t) (c : Core) resp :
  fst (snd (HandleRequest env r c)) = Some resp ->
  (exists a q, In (EvLogResponse a q (Some resp)) (snd (fst (HandleRequest env r c))) /\
               logResponse env a q (Some resp) (snd (snd (HandleRequest env r c))) = None)
  \/ (routerLoginPath env (Request.Path r) = false /\
      exists e, snd (checkToken env (Request.Operation r) (Request.Path r)
                                (Request.ClientToken r) c) = Err e /\
                resp = ErrorResponse (errorString e)).
Proof.
  unfold_pipeline. split_matches.
  all: simpl fst; simpl snd; intros H; try discriminate.
  all: injection H as <-.
  all: first [ left; do 2 eexists; split; [simpl; tauto | eassumption]
             | right; split; [first [assumption | reflexivity] | eexists; split; reflexivity] ].
Qed.

(** On an unsealed active core, a non-login request whose token check fails is answered with an error response naming the error, without routing; internal and permission errors are passed on and every other error becomes an invalid request. *)
Theorem HandleRequest_token_refused (env : Env) (r : Request.t) (c : Core) (e : error) :
  sealed c = false -> standby c = false ->
  routerLoginPath env (Request.Path r) = false ->
  snd (checkToken env (Request.Operation r) (Request.Path r) (Request.ClientToken r) c) = Err e ->
  HandleRequest env r c =
    (c, snd (fst (checkToken env (Request.Operation r) (Request.Path r) (Request.ClientToken r) c)),
     (Some (ErrorResponse (errorString e)),
      Some (match e with
            | ErrInternalError | ErrPermissionDenied => e
            | _ => ErrInvalidRequest
            end))).
Proof.
  intros Hs Hsb Hl Hct. unfold HandleRequest. autorewrite with monad.
  rewrite Hs, Hsb, Hl. unfold handleRequest.
  rewrite (bind_step _ _ _ _ _ _ (checkToken_state _ _ _ _ _)), Hct.
  unfold ret. simpl. rewrite app_nil_r. reflexivity.
Qed.

(** checkToken grants a request only for a non-empty token that the token store knows, after the token's use is counted and its policies allow the operation (and grant root privilege on a root path); the granted auth carries the token's policies, metadata and display name. *)
Theorem checkToken_grants (env : Env) op path token c a :
  snd (checkToken env op path token c) = Ok a ->
  exists te acl,
    token <> ""%string /\
    tokenLookup env token = Ok (Some te) /\ useToken env te = None /\
    policyACL env (TokenEntry.Policies te) = Ok acl /\
    AllowOperation acl op path = true /\
    (routerRootPath env path = true -> RootPrivilege acl path = true) /\
    a = Auth.mk token (TokenEntry.Policies te) (TokenEntry.Meta te) (TokenEntry.DisplayName te) 0 /\
    checkToken env op path token c =
      (c, [EvTokenLookup token; EvUseToken te; EvPolicyACL (TokenEntry.Policies te)], Ok a).
Proof.
  intros H. unfold checkToken, bind, emit, ret in *.
  destruct (String.eqb token "") eqn:Et; [discriminate |]. simpl in *.
  destruct (tokenLookup env token) as [[te|]|e] eqn:El; simpl in *; try discriminate.
  destruct (useToken env te) eqn:Eu; simpl in *; try discriminate.
  destruct (policyACL env (TokenEntry.Policies te)) as [acl|e] eqn:Ea; simpl in *; try discriminate.
  destruct (routerRootPath env path) eqn:Er; destruct (RootPrivilege acl path) eqn:Ep;
    destruct (AllowOperation acl op path) eqn:Eo; simpl in *; try discriminate.
  all: injection H as <-.
  all: exists te, acl; repeat split; try assumption; try reflexivity; try discriminate.
  all: try (intros; assumption).
  all: intros Hz; subst token; discriminate.
Qed.

(** A known, non-empty token whose policies refuse the operation is rejected with permission denied, after the token's use has been counted. *)
Theorem checkToken_use_before_acl (env : Env) op path token c te acl :
  token <> ""%string ->
  tokenLookup env token = Ok (Some te) -> useToken env te = None ->
  policyACL env (TokenEntry.Policies te) = Ok acl ->
  AllowOperation acl op path = false \/
  (routerRootPath env path = true /\ RootPrivilege acl path = false) ->
  checkToken env op path token c =
    (c, [EvTokenLookup token; EvUseToken te; EvPolicyACL (TokenEntry.Policies te)],
     Err ErrPermissionDenied).
Proof.
  intros Ht Hl Hu Ha Hdeny. unfold checkToken, bind, emit, ret.
  destruct (String.eqb token "") eqn:Et; [apply String.eqb_eq in Et; contradiction |].
  rewrite Hl, Hu, Ha. simpl.
  destruct Hdeny as [Ho | [Hr Hp]].
  - destruct (routerRootPath env path && negb (RootPrivilege acl path)); [reflexivity |].
    rewrite Ho. reflexivity.
  - rewrite Hr, Hp. reflexivity.
Qed.

(** A login whose backend response carries an auth mints a token with the auth's policies and metadata, registers the auth under the login path with the adjusted lease, and returns the response carrying the new token; the core state is unchanged. *)
Theorem handleLoginRequest_issues_token (env : Env) (r : Request.t) (c : Core)
  (resp : Response.t) (err : option error) (a : Auth.t) (id : string) :
  logRequest env None r = None ->
  routerRoute env r = (Some resp, err) ->
  Response.Auth resp = Some a ->
  let name := TrimSuffix (String.append
                (replaceSlashDash (TrimPrefix (routerMatchingMount env (Request.Path r)) "auth/"))
                (Auth.DisplayName a)) "-" in
  let te := TokenEntry.mk "" (Request.Path r) (Auth.Policies a) (Auth.Metadata a) name in
  tokenCreate env te = Ok id ->
  let a' := Auth.mk id (Auth.Policies a) (Auth.Metadata a) name (authLease env a) in
  let u := handleLoginRequest env r c in
  fst (fst u) = c /\
  snd (fst u) = [EvLogRequest None r; EvRoute r; EvTokenCreate te; EvRegisterAuth (Request.Path r) a'] ++
                (if expirationRegisterAuth env (Request.Path r) a' then []
                 else [EvLogResponse (Some a') (set_req_display_name r name) (Some (with_auth resp a'))]) /\
  (expirationRegisterAuth env (Request.Path r) a' = None ->
   logResponse env (Some a') (set_req_display_name r name) (Some (with_auth resp a')) err = None ->
   snd u = (Some (with_auth resp a'), err)).
Proof.
  intros Hlog Hroute Ha name te Htc a' u. subst u.
  unfold handleLoginRequest. rewrite bind_emit_proj, Hlog.
  cbv beta iota zeta. rewrite bind_emit_proj, Hroute.
  cbv beta iota zeta. rewrite Ha. rewrite bind_emit_proj.
  change (TokenEntry.mk "" (Request.Path r) _ _ _) with te. rewrite Htc.
  cbv beta iota zeta. rewrite bind_emit_proj.
  change (set_auth_lease _ _) with a'.
  destruct (expirationRegisterAuth env (Request.Path r) a') eqn:Er.
  - simpl. repeat split; intros; discriminate.
  - change (set_req_display_name r (Auth.DisplayName a')) with (set_req_display_name r name).
    rewrite auditResponse_result. simpl.
    split; [reflexivity | split; [reflexivity |]].
    intros _ Hl. rewrite Hl. reflexivity.
Qed.

(** A login whose backend response carries no auth is logged and returned as routed (or fails with an internal error if the audit log fails); no token is created and no auth is registered. *)
Theorem handleLoginRequest_no_auth (env : Env) (r : Request.t) (c : Core)
  (resp : option Response.t) (err : option error) :
  logRequest env None r = None ->
  routerRoute env r = (resp, err) ->
  (forall x, resp = Some x -> Response.Auth x = None) ->
  handleLoginRequest env r c =
    (c, [EvLogRequest None r; EvRoute r; EvLogResponse None r resp],
     match logResponse env None r resp err with
     | Some _ => (None, Some ErrInternalError)
     | None => (resp, err)
     end).
Proof.
  intros Hlog Hroute Hna. unfold handleLoginRequest.
  rewrite bind_emit_proj, Hlog. cbv beta iota zeta.
  rewrite bind_emit_proj, Hroute. cbv beta iota zeta.
  destruct resp as [x|].
  - rewrite (Hna x eq_refl). rewrite auditResponse_result. reflexivity.
  - rewrite auditResponse_result. reflexivity.
Qed.

(** ** Unsealing, sealing and the standby loop *)

(** When the last key share needed is submitted and the master key unseals the barrier, the parts are cleared; an HA core then starts its standby loop, a non-HA core runs postUnseal and is unsealed and active, or resealed with postUnseal's error if that fails. *)
Theorem Unseal_threshold_success (env : Env) (c : Core) (key mk : bytes) (config : SealConfig) :
  sealed c = true -> snd (getSealConfig env c) = Ok (Some config) ->
  validKeyLength env key = true ->
  existsb (fun existing => bytes_eqb existing key) (unlockParts c) = false ->
  Z.of_nat (List.length (unlockParts c)) + 1 = SecretThreshold config ->
  recoverMasterKey env config (app (unlockParts c) [key]) = Ok mk ->
  barrierUnseal env mk = None ->
  let u := Unseal env key c in
  let c' := fst (fst u) in
  unlockParts c' = [] /\ In (EvBarrierUnseal mk) (snd (fst u)) /\
  (ha c = true ->
     snd u = (true, None) /\ sealed c' = false /\ standby c' = standby c /\
     standbyRunning c' = true /\
     exists pre, snd (fst u) = pre ++ [EvBarrierUnseal mk; EvStandbyStart]) /\
  (ha c = false -> snd (postUnseal env c) = None ->
     snd u = (true, None) /\ sealed c' = false /\ standby c' = false) /\
  (ha c = false -> forall err, snd (postUnseal env c) = Some err ->
     snd u = (false, Some err) /\ sealed c' = true /\
     exists pre, snd (fst u) = pre ++ [EvBarrierSeal]).
Proof.
  intros Hs Hcfg Hv Hnd Hlen Hrec Hbu u c'. subst u c'.
  unseal_to_recovery Hs Hcfg Hv Hnd Hlen.
  unfold recoverMasterKey in Hrec.
  destruct (SecretThreshold config =? 1).
  - injection Hrec as Hrec. autorewrite with monad. simpl. rewrite Hrec.
    unfold bind, emit, get, put, ret. cbn -[postUnseal]. rewrite Hbu. cbn -[postUnseal].
    destruct (ha c) eqn:Eha; cbn -[postUnseal].
    + repeat split; try reflexivity; try (simpl; tauto); try discriminate.
      exists []. reflexivity.
    + match goal with |- context [postUnseal env ?c0] =>
        pose proof (postUnseal_frame env c0) as Hf;
        pose proof (postUnseal_result_indep env c c0) as Hi;
        destruct (postUnseal env c0) as [[c1 t1] r1] end.
      simpl in Hf, Hi. rewrite Hf. rewrite Hi.
      destruct r1 as [e|]; cbn.
      * repeat split; try reflexivity; try (simpl; tauto); try discriminate.
        all: try (match goal with H : Some _ = Some _ |- _ => injection H as <- end; reflexivity).
        eexists. rewrite !app_comm_cons. reflexivity.
      * repeat split; try reflexivity; try (simpl; tauto); try discriminate.
  - autorewrite with monad. rewrite bind_emit_proj. simpl. autorewrite with monad.
    rewrite Hrec. autorewrite with monad. simpl.
    unfold bind, emit, get, put, ret. cbn -[postUnseal]. rewrite Hbu. cbn -[postUnseal].
    destruct (ha c) eqn:Eha; cbn -[postUnseal].
    + repeat split; try reflexivity; try (simpl; tauto); try discriminate.
      exists [EvCombine (unlockParts c ++ [key])]. reflexivity.
    + match goal with |- context [postUnseal env ?c0] =>
        pose proof (postUnseal_frame env c0) as Hf;
        pose proof (postUnseal_result_indep env c c0) as Hi;
        destruct (postUnseal env c0) as [[c1 t1] r1] end.
      simpl in Hf, Hi. rewrite Hf. rewrite Hi.
      destruct r1 as [e|]; cbn.
      * repeat split; try reflexivity; try (simpl; tauto); try discriminate.
        all: try (match goal with H : Some _ = Some _ |- _ => injection H as <- end; reflexivity).
        eexists. rewrite !app_comm_cons. reflexivity.
      * repeat split; try reflexivity; try (simpl; tauto); try discriminate.
Qed.

(** Unseal on an unsealed core with a valid key and a stored configuration returns true and changes nothing. *)
Theorem Unseal_when_unsealed (env : Env) (c : Core) (key : bytes) (config : SealConfig) :
  sealed c = false -> validKeyLength env key = true ->
  snd (getSealConfig env c) = Ok (Some config) ->
  Unseal env key c = (c, [], (true, None)).
Proof.
  intros Hs Hv Hcfg. unfold Unseal. key_checks Hv.
  rewrite (bind_pure _ _ _ _ (getSealConfig_pure env c)), Hcfg.
  autorewrite with monad. rewrite Hs. reflexivity.
Qed.

(** With no seal configuration stored, Unseal fails with ErrNotInit, and with the read error if reading the configuration fails; the core is unchanged. *)
Theorem Unseal_without_config (env : Env) (c : Core) (key : bytes) :
  validKeyLength env key = true ->
  (snd (getSealConfig env c) = Ok None -> Unseal env key c = (c, [], (false, Some ErrNotInit))) /\
  (forall e, snd (getSealConfig env c) = Err e -> Unseal env key c = (c, [], (false, Some e))).
Proof.
  intros Hv. split; [| intros e]; intros Hcfg; unfold Unseal; key_checks Hv;
  rewrite (bind_pure _ _ _ _ (getSealConfig_pure env c)), Hcfg; reflexivity.
Qed.

(** Seal on an unsealed core fails with the token check's error, and the core stays unsealed, when the token check for sys/seal refuses the token. *)
Theorem Seal_token_refused (env : Env) (c : Core) (token : string) (e : error) :
  sealed c = false ->
  snd (checkToken env WriteOperation "sys/seal" token c) = Err e ->
  Seal env token c = (c, snd (fst (checkToken env WriteOperation "sys/seal" token c)), Some e).
Proof.
  intros Hs Hct. unfold Seal. autorewrite with monad. rewrite Hs.
  rewrite (bind_step _ _ _ _ _ _ (checkToken_state _ _ _ _ _)), Hct.
  unfold ret. simpl. rewrite app_nil_r. reflexivity.
Qed.

(** Seal on an unsealed non-HA core, with a token the check for sys/seal accepts, seals the core and runs preSeal exactly once; the barrier is sealed last unless preSeal fails, in which case Seal answers internal error and never seals the barrier. *)
Theorem Seal_non_HA (env : Env) (c : Core) (token : string) (a : Auth.t) :
  sealed c = false -> ha c = false ->
  snd (checkToken env WriteOperation "sys/seal" token c) = Ok a ->
  let u := Seal env token c in
  sealed (fst (fst u)) = true /\ countPreSeal (snd (fst u)) = 1%nat /\
  (snd (preSeal env c) = None ->
     snd u = barrierSeal env /\ exists pre, snd (fst u) = pre ++ [EvBarrierSeal]) /\
  (snd (preSeal env c) <> None ->
     snd u = Some (ErrMsg "internal error") /\ ~ In EvBarrierSeal (snd (fst u))).
Proof.
  intros Hs Hha Hct u. subst u. unfold Seal. autorewrite with monad. rewrite Hs.
  rewrite (bind_step _ _ _ _ _ _ (checkToken_state _ _ _ _ _)), Hct.
  cbv beta iota. autorewrite with monad. cbn [ha set_sealed]. rewrite Hha. simpl negb.
  cbv beta iota.
  unfold bind, emit, ret. cbn -[preSeal countPreSeal].
  pose proof (preSeal_once env (set_sealed c true)) as Hn.
  pose proof (preSeal_frame env (set_sealed c true)) as Hf.
  pose proof (preSeal_result_indep env c (set_sealed c true)) as Hi.
  pose proof (checkToken_no_preSeal env WriteOperation "sys/seal" token c) as Hc.
  destruct (preSeal env (set_sealed c true)) as [[c1 t1] r1] eqn:Ep.
  cbn [fst snd] in Hn, Hf, Hi. subst c1. rewrite Hi.
  assert (Hct0 : countPreSeal (snd (fst (checkToken env WriteOperation "sys/seal" token c))) = 0%nat)
    by exact Hc.
  destruct r1 as [e|]; cbn -[countPreSeal].
  - repeat rewrite app_nil_r.
    split; [reflexivity |]. split; [rewrite countPreSeal_app, Hc, Hn; reflexivity |].
    split; [intros H; discriminate |].
    intros _. split; [reflexivity |]. intros Hin.
    apply in_app_or in Hin as [Hin | Hin].
    + apply (checkToken_no_barrierSeal env WriteOperation "sys/seal" token c). exact Hin.
    + apply (preSeal_no_barrierSeal env (set_sealed c true)). rewrite Ep. exact Hin.
  - repeat rewrite app_nil_r.
    destruct (barrierSeal env) eqn:Eb; cbn -[countPreSeal];
    (split; [reflexivity |]);
    (split; [rewrite !countPreSeal_app, Hc, Hn; reflexivity |]);
    (split; [| intros H; contradiction H; reflexivity]);
    intros _; (split; [reflexivity |]);
    exists (snd (fst (checkToken env WriteOperation "sys/seal" token c)) ++ t1);
    rewrite <- app_assoc; reflexivity.
Qed.

(** Seal on an unsealed HA core, with a token the check for sys/seal accepts, marks it sealed, stops the standby loop and waits for it, then seals the barrier and returns the barrier's result.  A standby core is otherwise unchanged; an active core is put back in standby by the loop, whose preSeal stops its metrics. *)
Theorem Seal_HA (env : Env) (c : Core) (token : string) (a : Auth.t) :
  sealed c = false -> ha c = true ->
  snd (checkToken env WriteOperation "sys/seal" token c) = Ok a ->
  let u := Seal env token c in
  snd u = barrierSeal env /\
  sealed (fst (fst u)) = true /\ standby (fst (fst u)) = true /\
  standbyRunning (fst (fst u)) = false /\
  (standby c = true ->
     u = (set_standbyRunning (set_sealed c true) false,
          snd (fst (checkToken env WriteOperation "sys/seal" token c)) ++ [EvStandbyStop; EvBarrierSeal],
          barrierSeal env)) /\
  (standby c = false -> metricsRunning (fst (fst u)) = false).
Proof.
  intros Hs Hha Hct u. subst u. unfold Seal. autorewrite with monad. rewrite Hs.
  rewrite (bind_step _ _ _ _ _ _ (checkToken_state _ _ _ _ _)), Hct.
  cbv beta iota. autorewrite with monad. cbn [ha set_sealed]. rewrite Hha.
  unfold standbyShutdown, bind, emit, get, put, ret. cbn -[preSeal barrierSeal checkToken].
  destruct (standby c) eqn:Esb.
  - cbn. destruct (barrierSeal env); repeat split; try assumption; intros; first [reflexivity | discriminate].
  - pose proof (preSeal_frame env (set_standby (set_sealed c true) true)) as Hk1.
    destruct (preSeal env (set_standby (set_sealed c true) true)) as [[c1 t1] r1].
    cbn [fst] in Hk1. subst c1.
    match goal with |- context [preSeal env ?x] =>
      pose proof (preSeal_frame env x) as Hk2;
      destruct (preSeal env x) as [[c2 t2] r2] end.
    cbn [fst] in Hk2. subst c2. cbn.
    destruct (barrierSeal env); repeat split; try reflexivity; intros; discriminate.
Qed.

(** ** Initialization *)

Lemma postUnseal_keeps (env : Env) (c : Core) :
  exists m, fst (fst (postUnseal env c)) = set_metricsRunning c m.
Proof. eexists. apply postUnseal_frame. Qed.

Lemma preSeal_keeps (env : Env) (c : Core) :
  fst (fst (preSeal env c)) = set_metricsRunning c false.
Proof. apply preSeal_frame. Qed.

Lemma postUnseal_events (env : Env) (c : Core) e :
  In e (snd (fst (postUnseal env c))) -> setupEvent e = true.
Proof.
  unfold postUnseal, runPostUnsealStep, purgeCache, bind, emit, get, put, ret. cbn.
  destruct (physicalIsCache c); cbn; step_all env; cbn;
  intros H; repeat (destruct H as [H | H]; [subst; reflexivity |]); contradiction.
Qed.

Lemma preSeal_events (env : Env) (c : Core) e :
  In e (snd (fst (preSeal env c))) -> setupEvent e = true.
Proof.
  unfold preSeal, purgeCache, bind, emit, get, put, ret. cbn -[runPreSealSteps].
  destruct (metricsRunning c); cbn -[runPreSealSteps];
  match goal with |- context [runPreSealSteps env ?l ?a] =>
    pose proof (runPreSealSteps_events env l a e) as He;
    destruct (runPreSealSteps env l a) as [[c1 t1] [r1|]] end;
  simpl in He; cbn; try (destruct (physicalIsCache c1)); cbn;
  rewrite ?app_nil_r; intros H;
  repeat (destruct H as [H | H]; [subst; reflexivity |]);
  repeat (apply in_app_or in H as [H | H]);
  try (destruct (He H) as [? ->]; reflexivity);
  simpl in H; intuition (subst; reflexivity).
Qed.

Ltac unfold_init :=
  cbv beta iota zeta delta [Initialize Initialized initializeUnsealed ibind iemit iret liftM emit].

Ltac split_init :=
  repeat (match goal with
  | |- context [match getSealConfig ?env ?x with _ => _ end] =>
      rewrite (getSealConfig_pure env x); cbv beta iota zeta
  | |- context [match postUnseal ?env ?x with _ => _ end] =>
      let H := fresh "Hk" in
      pose proof (postUnseal_keeps env x) as H;
      let He := fresh "He" in pose proof (postUnseal_events env x) as He;
      destruct (postUnseal env x) as [[? ?] ?] eqn:?; cbn [fst snd] in H, He; cbv beta iota zeta
  | |- context [match preSeal ?env ?x with _ => _ end] =>
      let H := fresh "Hk" in
      pose proof (preSeal_keeps env x) as H;
      let He := fresh "He" in pose proof (preSeal_events env x) as He;
      destruct (preSeal env x) as [[? ?] ?] eqn:?; cbn [fst snd] in H, He; cbv beta iota zeta
  | |- context [match ?x with _ => _ end] =>
      lazymatch x with context [match _ with _ => _ end] => fail | _ => idtac end;
      destruct x eqn:?; cbv beta iota zeta
  end).

Ltac in_inv H :=
  repeat match type of H with
  | In _ (_ ++ _) => apply in_app_or in H as [H | H]
  | In _ (map _ _) => let x := fresh "x" in let Hx := fresh "Hx" in
                      apply in_map_iff in H as (x & H & Hx)
  | In _ (_ :: _) => destruct H as [H | H]
  | In _ [] => destruct H
  end.

Ltac in_find :=
  simpl; repeat (first [solve [left; reflexivity] | apply in_or_app; right | right]).

Ltac ends_with :=
  eexists; rewrite ?app_comm_cons, ?app_assoc; reflexivity.

(** Initialize writes to the physical store only for a valid configuration on a store whose barrier is not initialized (or has no seal configuration), and then only the encoded configuration at the seal configuration path. *)
Theorem Initialize_writes_only_when_fresh (env : Env) (ienv : InitEnv) (config : SealConfig)
  (c : Core) (k : string) (v : bytes) :
  In (IEvPhysicalPut k v) (snd (fst (Initialize env ienv config c))) ->
  Validate config = None /\
  (barrierInitialized ienv = Ok false \/
   (barrierInitialized ienv = Ok true /\ snd (getSealConfig env c) = Ok None)) /\
  k = coreSealConfigPath /\ v = encodeSealConfig ienv config.
Proof.
  unfold_init. destruct (Validate config) eqn:Ev; cbv beta iota zeta;
  split_init.
  all: cbn [fst snd]; intros H; in_inv H; try discriminate.
  all: try (injection H as <- <-).
  all: repeat split; auto.
Qed.

(** When Initialize returns a result, the master key was generated, the barrier initialized and unsealed with it, the shares are the master key itself for one share or its Shamir split otherwise, the root token is the token store's, and the seal configuration was written. *)
Theorem Initialize_result (env : Env) (ienv : InitEnv) (config : SealConfig) (c : Core)
  (res : InitResult) :
  fst (snd (Initialize env ienv config c)) = Some res ->
  exists mk,
    Validate config = None /\
    barrierGenerateKey ienv = Ok mk /\ barrierInitialize ienv mk = None /\
    barrierUnseal env mk = None /\
    (SecretShares config = 1 -> InitSecretShares res = [mk]) /\
    (SecretShares config <> 1 ->
       shamirSplit ienv mk (SecretShares config) (SecretThreshold config) = Ok (InitSecretShares res)) /\
    tokenStoreRootToken ienv = Ok (RootToken res) /\
    In (IEvPhysicalPut coreSealConfigPath (encodeSealConfig ienv config))
       (snd (fst (Initialize env ienv config c))).
Proof.
  unfold_init. destruct (Validate config) eqn:Ev; cbv beta iota zeta;
  split_init.
  all: cbn [fst snd]; intros H; try discriminate.
  all: injection H as <-.
  all: eexists; repeat split; try eassumption; try reflexivity.
  all: try (intros; apply Z.eqb_eq; assumption).
  all: try (intros Hn; apply Z.eqb_eq in Hn; apply Hn; assumption).
  all: try (intros Hn; apply Z.eqb_neq in Hn; congruence).
  all: try (intros Hn; apply Z.eqb_eq in Hn; congruence).
  all: simpl; rewrite ?in_app_iff; simpl; intuition.
Qed.

(** Initialize seals the barrier again exactly when it has unsealed it, and the seal is its last call. *)
Theorem Initialize_reseals (env : Env) (ienv : InitEnv) (config : SealConfig) (c : Core) :
  let t := snd (fst (Initialize env ienv config c)) in
  (In (IEvCore EvBarrierSeal) t <->
   exists mk, In (IEvCore (EvBarrierUnseal mk)) t /\ barrierUnseal env mk = None) /\
  (In (IEvCore EvBarrierSeal) t -> exists pre, t = pre ++ [IEvCore EvBarrierSeal]).
Proof.
  intros t. subst t.
  unfold_init. destruct (Validate config) eqn:Ev; cbv beta iota zeta;
  split_init.
  all: cbn [fst snd map app].
  all: split; [split |].
  all: try (intros H; in_inv H; try discriminate;
            match goal with
            | H : IEvCore _ = IEvCore ?x, Hx : In ?x _ |- _ =>
                injection H as <-; first [apply He in Hx | apply He0 in Hx]; discriminate
            end).
  all: try (intros [mk [H Hb]]; in_inv H; try discriminate;
            match goal with
            | H : IEvCore _ = IEvCore ?x, Hx : In ?x _ |- _ =>
                injection H as <-; first [apply He in Hx | apply He0 in Hx]; discriminate
            | H : IEvCore _ = IEvCore _ |- _ => injection H as <-; congruence
            end).
  all: intros _.
  all: try (eexists; split; [in_find | eassumption]).
  all: try in_find.
  all: try ends_with.
Qed.

(** Initialize with an invalid configuration fails without any call, and on an initialized store it fails with ErrAlreadyInit after checking only; the core is unchanged. *)
Theorem Initialize_refuses (env : Env) (ienv : InitEnv) (config : SealConfig) (c : Core) :
  (forall e, Validate config = Some e ->
     Initialize env ienv config c =
     (c, [], (None, Some (ErrMsg (String.append "invalid seal configuration: " (errorString e)))))) /\
  (Validate config = None -> snd (Initialized env ienv c) = (true, None) ->
     Initialize env ienv config c = (c, [IEvBarrierInitialized], (None, Some ErrAlreadyInit))).
Proof.
  split.
  - intros e Hv. unfold Initialize. rewrite Hv. reflexivity.
  - intros Hv. unfold_init. rewrite Hv. cbv beta iota zeta.
    split_init; cbn [fst snd map app]; intros H; try discriminate; reflexivity.
Qed.

(** Initialized changes nothing, makes no call but the barrier's Initialized (the seal configuration is only read), never reports true together with an error, and reports true exactly when the barrier is initialized and a seal configuration is stored. *)
Theorem Initialized_spec (env : Env) (ienv : InitEnv) (c : Core) :
  let u := Initialized env ienv c in
  fst (fst u) = c /\ snd (fst u) = [IEvBarrierInitialized] /\
  (fst (snd u) = true -> snd (snd u) = None) /\
  (fst (snd u) = true <->
   barrierInitialized ienv = Ok true /\ exists conf, snd (getSealConfig env c) = Ok (Some conf)).
Proof.
  intros u. subst u. unfold_init. split_init; cbn [fst snd map app].
  all: repeat split; try reflexivity; try discriminate.
  all: try (intros [H1 [conf H2]]; congruence).
  all: eexists; reflexivity.
Qed.

Lemma Validate_none_bounds (s : SealConfig) :
  Validate s = None <->
  1 <= SecretThreshold s /\ SecretThreshold s <= SecretShares s /\ SecretShares s <= 255.
Proof.
  unfold Validate. rewrite !Z.gtb_ltb.
  destruct (Z.ltb_spec (SecretShares s) 1); [split; [discriminate | lia] |].
  destruct (Z.ltb_spec (SecretThreshold s) 1); [split; [discriminate | lia] |].
  destruct (Z.ltb_spec 255 (SecretShares s)); [split; [discriminate | lia] |].
  destruct (Z.ltb_spec 255 (SecretThreshold s)); [split; [discriminate | lia] |].
  destruct (Z.ltb_spec (SecretShares s) (SecretThreshold s)); [split; [discriminate | lia] |].
  split; [lia | reflexivity].
Qed.

(** Validate accepts a seal configuration exactly when 1 <= threshold <= shares <= 255. *)
Theorem Validate_accepts (s : SealConfig) :
  Validate s = None <->
  1 <= SecretThreshold s /\ SecretThreshold s <= SecretShares s /\ SecretShares s <= 255.
Proof. apply Validate_none_bounds. Qed.

(** Reading the seal configuration changes nothing; it is absent exactly when the physical store has no entry, and a configuration it returns was decoded from the stored entry and satisfies 1 <= threshold <= shares <= 255. *)
Theorem getSealConfig_spec (env : Env) (c : Core) :
  let u := getSealConfig env c in
  fst (fst u) = c /\ snd (fst u) = [] /\
  (snd u = Ok None <-> physicalGet env coreSealConfigPath = Ok None) /\
  (forall conf, snd u = Ok (Some conf) ->
     exists v, physicalGet env coreSealConfigPath = Ok (Some v) /\
               decodeSealConfig env v = Ok conf /\
               1 <= SecretThreshold conf /\ SecretThreshold conf <= SecretShares conf /\
               SecretShares conf <= 255).
Proof.
  intros u. subst u. unfold getSealConfig, ret.
  destruct (physicalGet env coreSealConfigPath) as [[v|]|e]; cbn.
  - destruct (decodeSealConfig env v) as [conf|e] eqn:Ed; cbn.
    + destruct (Validate conf) eqn:Ev; cbn.
      * repeat split; try reflexivity; try discriminate.
      * repeat split; try reflexivity; try discriminate.
        intros conf' H. injection H as <-. exists v.
        apply Validate_none_bounds in Ev. tauto.
    + repeat split; try reflexivity; try discriminate.
  - repeat split; try reflexivity; try discriminate.
  - repeat split; try reflexivity; try discriminate.
Qed.

(** ** Construction of a Core *)

(** A Core built by NewCore is sealed, in standby, with no accepted key parts, no standby loop and no metrics; it is HA exactly when the backend is, then with a non-empty advertise address, and its backend is cached unless caching is disabled or the backend is in-memory (or already a cache). *)
Theorem NewCore_ok (nenv : NewCoreEnv) (conf : CoreConfig) (c : Core) (b : CoreBackends) :
  NewCore nenv conf = Ok (c, b) ->
  sealed c = true /\ standby c = true /\ standbyRunning c = false /\ unlockParts c = [] /\
  metricsRunning c = false /\ ha c = physIsHA (Physical conf) /\
  advertiseAddr c = AdvertiseAddr conf /\
  (ha c = true -> advertiseAddr c <> ""%string) /\
  physicalIsCache c = physIsCache (Physical conf) ||
                      (negb (DisableCache conf) && negb (physIsInmem (Physical conf))).
Proof.
  unfold NewCore. destruct conf as [lb cb ab [pha pca pin] dc dm cs addr]; cbn.
  destruct (pha && String.eqb addr "") eqn:Eh; [discriminate |].
  destruct (if negb dm then mlockLockMemory nenv else None); [discriminate |].
  destruct (newAESGCMBarrier nenv); [discriminate |].
  intros H. injection H as <- <-. cbn.
  repeat split; try reflexivity.
  - intros ->. cbn in Eh. apply String.eqb_neq. exact Eh.
  - destruct dc, pca, pin; reflexivity.
Qed.

(** NewCore fails exactly when the backend is HA with no advertise address, or mlock is enabled and fails, or the barrier cannot be set up. *)
Theorem NewCore_fails (nenv : NewCoreEnv) (conf : CoreConfig) :
  (exists e, NewCore nenv conf = Err e) <->
  (physIsHA (Physical conf) = true /\ AdvertiseAddr conf = ""%string) \/
  (DisableMlock conf = false /\ mlockLockMemory nenv <> None) \/
  newAESGCMBarrier nenv <> None.
Proof.
  unfold NewCore.
  destruct (physIsHA (Physical conf)) eqn:Eh, (String.eqb (AdvertiseAddr conf) "") eqn:Ea;
  rewrite ?String.eqb_eq, ?String.eqb_neq in Ea; cbn;
  destruct (DisableMlock conf), (mlockLockMemory nenv), (newAESGCMBarrier nenv); cbn;
  (split; [intros [? H] | intros H]);
  first [ left; split; [reflexivity | assumption]
        | right; left; split; [reflexivity | discriminate]
        | right; right; discriminate
        | eexists; reflexivity
        | exfalso; discriminate
        | exfalso; intuition congruence ].
Qed.

(** NewCore checks the advertise address first, then mlock, whose failure it reports with the advice text; with mlock disabled its outcome does not depend on mlock. *)
Theorem NewCore_errors (nenv : NewCoreEnv) (conf : CoreConfig) :
  (physIsHA (Physical conf) = true -> AdvertiseAddr conf = ""%string ->
     NewCore nenv conf = Err (ErrMsg "missing advertisement address")) /\
  (physIsHA (Physical conf) && String.eqb (AdvertiseAddr conf) "" = false ->
     DisableMlock conf = false -> forall e, mlockLockMemory nenv = Some e ->
     NewCore nenv conf =
       Err (ErrMsg (String.append "Failed to lock memory: "
                      (String.append (errorString e) mlockAdvice)))) /\
  (DisableMlock conf = true ->
     forall nenv', newAESGCMBarrier nenv' = newAESGCMBarrier nenv ->
     NewCore nenv' conf = NewCore nenv conf).
Proof.
  unfold NewCore. repeat split.
  - intros -> ->. reflexivity.
  - intros Hh Hm e He. rewrite Hh, Hm, He. reflexivity.
  - intros Hm nenv' Hb. rewrite Hm, Hb. reflexivity.
Qed.

(** NewCore installs the generic and system logical backends and the token credential backend over the configured ones, and keeps every other configured backend and all audit backends. *)
Theorem NewCore_backends (nenv : NewCoreEnv) (conf : CoreConfig) (c : Core) (b : CoreBackends) :
  NewCore nenv conf = Ok (c, b) ->
  logicalBackends b "generic" = Some PassthroughBackendFactory /\
  logicalBackends b "system" = Some SystemBackendFactory /\
  credentialBackends b "token" = Some TokenStoreFactory /\
  (forall k, k <> "generic"%string -> k <> "system"%string ->
     logicalBackends b k = LogicalBackends conf k) /\
  (forall k, k <> "token"%string -> credentialBackends b k = CredentialBackends conf k) /\
  (forall k, auditBackends b k = AuditBackends conf k).
Proof.
  unfold NewCore.
  destruct (physIsHA (Physical conf) && String.eqb (AdvertiseAddr conf) ""); [discriminate |].
  destruct (if negb (DisableMlock conf) then mlockLockMemory nenv else None); [discriminate |].
  destruct (newAESGCMBarrier nenv); [discriminate |].
  intros H. injection H as <- <-. cbn. unfold mapInsert.
  repeat split; try reflexivity.
  - intros k H1 H2. apply String.eqb_neq in H1, H2. rewrite H1, H2. reflexivity.
  - intros k H1. apply String.eqb_neq in H1. rewrite H1. reflexivity.
Qed.

(** ** Instances of the properties above *)

Lemma HandleRequest_routes_only_audited_witness :
  exists a pre post,
    snd (fst (HandleRequest secretEnv secretReq activeCore)) =
      pre ++ EvLogRequest a (Request.mk ReadOperation "secret/foo" "root-token" "root")
          :: EvRoute (Request.mk ReadOperation "secret/foo" "root-token" "root") :: post /\
    logRequest secretEnv a (Request.mk ReadOperation "secret/foo" "root-token" "root") = None.
Proof.
  apply (HandleRequest_routes_only_audited secretEnv secretReq activeCore
           (Request.mk ReadOperation "secret/foo" "root-token" "root")).
  vm_compute. repeat (first [left; reflexivity | right]).
Defined.

Lemma HandleRequest_auth_registered_paths_witness :
  "auth/token/create"%string =
    Request.Path (Request.mk WriteOperation "auth/token/create" "root-token" "") /\
  (HasPrefix "auth/token/create" "auth/token/" = true \/
   routerLoginPath rootEnv "auth/token/create" = true).
Proof.
  apply (HandleRequest_auth_registered_paths rootEnv
           (Request.mk WriteOperation "auth/token/create" "root-token" "") activeCore
           "auth/token/create" rootChildAuth).
  vm_compute. repeat (first [left; reflexivity | right]).
Defined.

Lemma HandleRequest_response_audited_witness :
  (exists a q, In (EvLogResponse a q (Some secretReply))
                  (snd (fst (HandleRequest secretEnv secretReq activeCore))) /\
               logResponse secretEnv a q (Some secretReply)
                 (snd (snd (HandleRequest secretEnv secretReq activeCore))) = None) \/
  (routerLoginPath secretEnv (Request.Path secretReq) = false /\
   exists e, snd (checkToken secretEnv (Request.Operation secretReq) (Request.Path secretReq)
                             (Request.ClientToken secretReq) activeCore) = Err e /\
             secretReply = ErrorResponse (errorString e)).
Proof.
  apply (HandleRequest_response_audited secretEnv secretReq activeCore secretReply).
  vm_compute. reflexivity.
Defined.

Lemma HandleRequest_token_refused_witness :
  HandleRequest testEnv1 (req "secret/foo" "bad") activeCore =
    (activeCore, snd (fst (checkToken testEnv1 ReadOperation "secret/foo" "bad" activeCore)),
     (Some (ErrorResponse (errorString ErrPermissionDenied)), Some ErrPermissionDenied)).
Proof.
  apply (HandleRequest_token_refused testEnv1 (req "secret/foo" "bad") activeCore
           ErrPermissionDenied); vm_compute; reflexivity.
Defined.

Lemma checkToken_grants_witness :
  exists te, tokenLookup secretEnv "root-token" = Ok (Some te) /\
    checkToken secretEnv ReadOperation "secret/foo" "root-token" activeCore =
      (activeCore, [EvTokenLookup "root-token"; EvUseToken te; EvPolicyACL (TokenEntry.Policies te)],
       Ok rootTokenAuth).
Proof.
  destruct (checkToken_grants secretEnv ReadOperation "secret/foo" "root-token" activeCore
              rootTokenAuth) as (te & acl & _ & Hl & _ & _ & _ & _ & _ & Hc);
    [vm_compute; reflexivity |].
  exists te. split; [exact Hl | exact Hc].
Defined.

Lemma checkToken_use_before_acl_witness :
  checkToken readOnlyEnv WriteOperation "secret/foo" "root-token" activeCore =
    (activeCore, [EvTokenLookup "root-token"; EvUseToken rootTokenEntry;
                  EvPolicyACL (TokenEntry.Policies rootTokenEntry)],
     Err ErrPermissionDenied).
Proof.
  apply (checkToken_use_before_acl readOnlyEnv WriteOperation "secret/foo" "root-token"
           activeCore rootTokenEntry readOnlyACL).
  - intros H; discriminate H.
  - vm_compute; reflexivity.
  - vm_compute; reflexivity.
  - vm_compute; reflexivity.
  - left; vm_compute; reflexivity.
Defined.

Lemma handleLoginRequest_issues_token_witness :
  snd (handleLoginRequest rootEnv loginReq activeCore) =
    (Some (with_auth (Response.mk None (Some rootChildAuth) [])
                     (Auth.mk "token-id" ["root"%string] [] "userpass" 0)), None).
Proof.
  destruct (handleLoginRequest_issues_token rootEnv loginReq activeCore
              (Response.mk None (Some rootChildAuth) []) None rootChildAuth "token-id")
    as (_ & _ & H);
    [vm_compute; reflexivity .. | refine (eq_trans (H _ _) _); vm_compute; reflexivity].
Defined.

Lemma handleLoginRequest_no_auth_witness :
  handleLoginRequest testEnv1 loginReq activeCore =
    (activeCore, [EvLogRequest None loginReq; EvRoute loginReq; EvLogResponse None loginReq None],
     match logResponse testEnv1 None loginReq None None with
     | Some _ => (None, Some ErrInternalError)
     | None => (None, None)
     end).
Proof.
  apply (handleLoginRequest_no_auth testEnv1 loginReq activeCore None None).
  - vm_compute; reflexivity.
  - vm_compute; reflexivity.
  - intros x Hx; discriminate Hx.
Defined.

Lemma Unseal_threshold_success_witness :
  snd (Unseal testEnv1 keyA (sealedCore false [])) = (true, None) /\
  sealed (fst (fst (Unseal testEnv1 keyA (sealedCore false [])))) = false.
Proof.
  destruct (Unseal_threshold_success testEnv1 (sealedCore false []) keyA keyA (mkSealConfig 1 1))
    as (_ & _ & _ & Hnon & _); try (vm_compute; reflexivity).
  destruct Hnon as (H1 & H2 & _); try (vm_compute; reflexivity).
  split; [exact H1 | exact H2].
Defined.

Lemma Unseal_when_unsealed_witness :
  Unseal testEnv1 keyA activeCore = (activeCore, [], (true, None)).
Proof.
  apply (Unseal_when_unsealed testEnv1 activeCore keyA (mkSealConfig 1 1));
    vm_compute; reflexivity.
Defined.

Lemma Unseal_without_config_witness :
  Unseal freshEnv keyA (sealedCore false []) = (sealedCore false [], [], (false, Some ErrNotInit)).
Proof.
  apply (proj1 (Unseal_without_config freshEnv (sealedCore false []) keyA
                  ltac:(vm_compute; reflexivity))).
  vm_compute; reflexivity.
Defined.

Lemma Seal_token_refused_witness :
  Seal testEnv1 "bad" activeCore =
    (activeCore, snd (fst (checkToken testEnv1 WriteOperation "sys/seal" "bad" activeCore)),
     Some ErrPermissionDenied).
Proof.
  apply (Seal_token_refused testEnv1 activeCore "bad" ErrPermissionDenied);
    vm_compute; reflexivity.
Defined.

Lemma Seal_non_HA_witness :
  sealed (fst (fst (Seal rootEnv "root-token" activeCore))) = true /\
  countPreSeal (snd (fst (Seal rootEnv "root-token" activeCore))) = 1%nat.
Proof.
  destruct (Seal_non_HA rootEnv activeCore "root-token" rootTokenAuth) as (H1 & H2 & _);
    try (vm_compute; reflexivity).
  split; [exact H1 | exact H2].
Defined.

Lemma Seal_HA_witness :
  let u := Seal rootEnv "root-token" (unsealedCore true false) in
  snd u = barrierSeal rootEnv /\ sealed (fst (fst u)) = true /\
  standby (fst (fst u)) = true /\ metricsRunning (fst (fst u)) = false.
Proof.
  destruct (Seal_HA rootEnv (unsealedCore true false) "root-token" rootTokenAuth)
    as (H1 & H2 & H3 & _ & _ & H6); [vm_compute; reflexivity .. |].
  split; [exact H1 |]. split; [exact H2 |]. split; [exact H3 |]. apply H6. reflexivity.
Defined.

Lemma Initialize_writes_only_when_fresh_witness :
  Validate (mkSealConfig 1 1) = None /\
  (barrierInitialized initEnvOK = Ok false \/
   (barrierInitialized initEnvOK = Ok true /\
    snd (getSealConfig testEnv1 (sealedCore false [])) = Ok None)) /\
  coreSealConfigPath = coreSealConfigPath /\
  [Byte.x7b; Byte.x7d] = encodeSealConfig initEnvOK (mkSealConfig 1 1).
Proof.
  apply (Initialize_writes_only_when_fresh testEnv1 initEnvOK (mkSealConfig 1 1)
           (sealedCore false []) coreSealConfigPath [Byte.x7b; Byte.x7d]).
  vm_compute. repeat (first [left; reflexivity | right]).
Defined.

Lemma Initialize_result_witness :
  exists mk, barrierGenerateKey initEnvOK = Ok mk /\
             InitSecretShares (mkInitResult [keyA] "root-id") = [mk].
Proof.
  destruct (Initialize_result testEnv1 initEnvOK (mkSealConfig 1 1) (sealedCore false [])
              (mkInitResult [keyA] "root-id")) as (mk & _ & Hg & _ & _ & H1 & _);
    [vm_compute; reflexivity |].
  exists mk. split; [exact Hg | apply H1; reflexivity].
Defined.

Lemma NewCore_ok_witness :
  sealed haCore = true /\ (ha haCore = true -> advertiseAddr haCore <> ""%string).
Proof.
  destruct (NewCore_ok newCoreOK haConfig haCore haBackends) as (H1 & _ & _ & _ & _ & _ & _ & H2 & _);
    [reflexivity |].
  split; [exact H1 | exact H2].
Defined.

Lemma NewCore_backends_witness :
  logicalBackends haBackends "generic" = Some PassthroughBackendFactory /\
  credentialBackends haBackends "token" = Some TokenStoreFactory.
Proof.
  destruct (NewCore_backends newCoreOK haConfig haCore haBackends) as (H1 & _ & H2 & _);
    [reflexivity |].
  split; [exact H1 | exact H2].
Defined.
